(** * Mass Knob Modifier: a shallow embedding and its verified properties

    The repository holds two versions of one Nuke tool:
    - [src/MassKnobModifier.py], the standalone script ([Module Standalone]);
    - [src/MassKnobModifier/MassKnobModifier.py], the package version with
      class modes, knob coercion and the label special case
      ([Module Package]).

    Python text is modelled as [string]; a character is a Unicode code point
    below 256.  The host application (nodes, knobs, undo stack, message box)
    is modelled by records whose fields give the host's answers, and by a log
    of the calls the tool makes on it. *)

From Stdlib Require Import ZArith Ascii String List Bool Lia.
From stdpp Require Import base option list strings sorting gmap pretty.

Local Open Scope Z_scope.

(** ** Python text primitives *)

Module PyStr.

Definition code (c : ascii) : N := N_of_ascii c.

(** [str.isspace] on one character: the ASCII controls 9-13 and 28-31, the
    space, NEL (133) and the no-break space (160). *)
Definition is_space (c : ascii) : bool :=
  let n := code c in
  ((9 <=? n) && (n <=? 13) || (28 <=? n) && (n <=? 32)
   || (n =? 133) || (n =? 160))%N.

(** [str.lower] on one character: A-Z, and the Latin-1 capitals 192-222
    except the multiplication sign 215. *)
Definition lower_char (c : ascii) : ascii :=
  let n := code c in
  if ((65 <=? n) && (n <=? 90)
      || (192 <=? n) && (n <=? 222) && negb (n =? 215))%N
  then ascii_of_N (n + 32) else c.

Fixpoint lower (s : string) : string :=
  match s with
  | EmptyString => EmptyString
  | String c s' => String (lower_char c) (lower s')
  end.

Fixpoint lstrip (s : string) : string :=
  match s with
  | EmptyString => EmptyString
  | String c s' => if is_space c then lstrip s' else s
  end.

Fixpoint rstrip (s : string) : string :=
  match s with
  | EmptyString => EmptyString
  | String c s' =>
      match rstrip s' with
      | EmptyString => if is_space c then EmptyString else String c EmptyString
      | r => String c r
      end
  end.

Definition strip (s : string) : string := rstrip (lstrip s).

(** [c in s] for a one-character needle. *)
Fixpoint contains (c : ascii) (s : string) : bool :=
  match s with
  | EmptyString => false
  | String d s' => if decide (d = c) then true else contains c s'
  end.

(** [s.split(sep)] for a one-character separator: never the empty list. *)
Fixpoint split (sep : ascii) (s : string) : list string :=
  match s with
  | EmptyString => [EmptyString]
  | String c s' =>
      if decide (c = sep) then EmptyString :: split sep s'
      else match split sep s' with
           | h :: t => String c h :: t
           | [] => [String c EmptyString]
           end
  end.

(** [s.startswith(c)] for a one-character prefix. *)
Definition startswith (c : ascii) (s : string) : bool :=
  match s with
  | String d _ => bool_decide (d = c)
  | EmptyString => false
  end.

(** [s[1:]] *)
Definition tail (s : string) : string :=
  match s with
  | String _ s' => s'
  | EmptyString => EmptyString
  end.

(** [sep.join(l)] *)
Fixpoint join (sep : string) (l : list string) : string :=
  match l with
  | [] => EmptyString
  | [x] => x
  | x :: l' => x +:+ sep +:+ join sep l'
  end.

(** [x in l] for a list or tuple of strings. *)
Definition mem (x : string) (l : list string) : bool := bool_decide (x ∈ l).

(** [l.index(x)]: the first position holding [x]. *)
Fixpoint index (x : string) (l : list string) : option Z :=
  match l with
  | [] => None
  | y :: l' => if decide (y = x) then Some 0 else Z.succ <$> index x l'
  end.

End PyStr.

(** ** The builtins [int] and [float] on text *)

(** A Python float read from text.  [FDec neg m e] stands for the double
    nearest to [(-1)^neg * m * 10^e]; the sign is kept apart because Python
    tells [-0.0] from [0.0]. *)
Inductive PyFloat :=
| FDec (neg : bool) (mant : Z) (exp10 : Z)
| FInf (neg : bool)
| FNan (neg : bool).

Module PyNum.
Import PyStr.

Definition digit_val (c : ascii) : option Z :=
  let n := code c in
  if ((48 <=? n) && (n <=? 57))%N then Some (Z.of_N n - 48) else None.

Definition is_digit (c : ascii) : bool := bool_decide (is_Some (digit_val c)).

(** Underscores are legal only between two digits. *)
Fixpoint underscores_ok (prev : option ascii) (s : string) : bool :=
  match s with
  | EmptyString => negb (bool_decide (prev = Some "_"%char))
  | String c s' =>
      (if decide (c = "_"%char)
       then match prev with Some p => is_digit p | None => false end
       else if decide (prev = Some "_"%char) then is_digit c else true)
      && underscores_ok (Some c) s'
  end.

Fixpoint remove_underscores (s : string) : string :=
  match s with
  | EmptyString => EmptyString
  | String c s' =>
      if decide (c = "_"%char) then remove_underscores s'
      else String c (remove_underscores s')
  end.

(** The longest prefix of decimal digits, most significant first. *)
Fixpoint span_digits (s : string) : list Z * string :=
  match s with
  | EmptyString => ([], EmptyString)
  | String c s' =>
      match digit_val c with
      | Some d => let '(ds, r) := span_digits s' in (d :: ds, r)
      | None => ([], s)
      end
  end.

Definition digits_value (ds : list Z) : Z :=
  fold_left (fun acc d => 10 * acc + d) ds 0.

Definition split_sign (s : string) : bool * string :=
  match s with
  | String c s' =>
      if decide (c = "-"%char) then (true, s')
      else if decide (c = "+"%char) then (false, s')
      else (false, s)
  | EmptyString => (false, s)
  end.

(** [int(s)] in base 10: surrounding white space, an optional sign, digits
    with single underscores between them.  [None] is [ValueError]. *)
Definition py_int (s : string) : option Z :=
  let t := strip s in
  let '(neg, body) := split_sign t in
  if underscores_ok None body then
    match span_digits (remove_underscores body) with
    | (d :: ds, EmptyString) =>
        let n := digits_value (d :: ds) in
        Some (if neg then - n else n)
    | _ => None
    end
  else None.

Definition exponent (s : string) : option Z :=
  match s with
  | EmptyString => Some 0
  | String c s' =>
      if decide (lower_char c = "e"%char) then
        let '(neg, body) := split_sign s' in
        match span_digits body with
        | (d :: ds, EmptyString) =>
            let n := digits_value (d :: ds) in
            Some (if neg then - n else n)
        | _ => None
        end
      else None
  end.

(** [float(s)]: surrounding white space, an optional sign, then [inf],
    [infinity] or [nan] in any case, or digits with an optional fraction
    and an optional exponent.  [None] is [ValueError]. *)
Definition py_float (s : string) : option PyFloat :=
  let t := strip s in
  if underscores_ok None t then
    let '(neg, body) := split_sign (remove_underscores t) in
    let low := lower body in
    if mem low ["inf"; "infinity"] then Some (FInf neg)
    else if decide (low = "nan") then Some (FNan neg)
    else
      let '(ip, r1) := span_digits body in
      let '(fp, r2) :=
        if startswith "."%char r1 then span_digits (tail r1) else ([], r1) in
      match ip ++ fp with
      | [] => None
      | ds =>
          e ← exponent r2;
          Some (FDec neg (digits_value ds) (e - Z.of_nat (length fp)))
      end
  else None.

End PyNum.

(** ** Parsed values and exceptions *)

Inductive PyNumber :=
| NInt (z : Z)
| NFloat (f : PyFloat).

(** The values the tool computes and hands to the host. *)
Inductive PyVal :=
| PBool (b : bool)
| PInt (z : Z)
| PFloat (f : PyFloat)
| PNumList (l : list PyNumber)
| PStrList (l : list string)
| PStr (s : string).

Definition num_val (x : PyNumber) : PyVal :=
  match x with
  | NInt z => PInt z
  | NFloat f => PFloat f
  end.

(** Exception classes as the handlers of the source tell them apart:
    [except ValueError], [except TypeError], [except Exception]; a
    [NonException] (KeyboardInterrupt, SystemExit) passes all three. *)
Inductive exn_class := ValueError | TypeError | OtherException | NonException.

Record exn := Exn { exn_cls : exn_class; exn_msg : string }.

Inductive result (A : Type) :=
| Return (a : A)
| Raise (e : exn).
Arguments Return {A} a.
Arguments Raise {A} e.

Definition is_Exception (e : exn) : bool :=
  match exn_cls e with NonException => false | _ => true end.

Definition is_TypeError (e : exn) : bool :=
  match exn_cls e with TypeError => true | _ => false end.

#[global] Instance exn_class_eq_dec : EqDecision exn_class.
Proof. solve_decision. Defined.
#[global] Instance exn_eq_dec : EqDecision exn.
Proof. solve_decision. Defined.
#[global] Instance PyFloat_eq_dec : EqDecision PyFloat.
Proof. solve_decision. Defined.
#[global] Instance PyNumber_eq_dec : EqDecision PyNumber.
Proof. solve_decision. Defined.
#[global] Instance PyVal_eq_dec : EqDecision PyVal.
Proof. solve_decision. Defined.


(** ** Effects: a log of host calls and Python exceptions *)

(** A computation yields a value or raises, and records the calls it made on
    the host, oldest first. *)
Definition Eff (L A : Type) : Type := result A * list L.

Module Eff.

Definition ret {L A} (a : A) : Eff L A := (Return a, []).
Definition raise {L A} (e : exn) : Eff L A := (Raise e, []).
Definition emit {L} (x : L) : Eff L unit := (Return tt, [x]).

Definition bind {L A B} (m : Eff L A) (f : A -> Eff L B) : Eff L B :=
  match m with
  | (Return a, l) => let '(r, l') := f a in (r, l ++ l')
  | (Raise e, l) => (Raise e, l)
  end.

(** [try: m  except <catch> as e: h e] *)
Definition try_except {L A} (catch : exn -> bool) (m : Eff L A)
    (h : exn -> Eff L A) : Eff L A :=
  match m with
  | (Raise e, l) =>
      if catch e then let '(r, l') := h e in (r, l ++ l') else (Raise e, l)
  | (Return a, l) => (Return a, l)
  end.

(** [try: m  finally: f]: [f] runs on both exits; when [m] raised and [f]
    returns, the exception of [m] goes on. *)
Definition finally {L A} (m : Eff L A) (f : Eff L unit) : Eff L A :=
  let '(r, l) := m in
  let '(r', l') := f in
  (match r' with Raise e' => Raise e' | Return _ => r end, l ++ l').

(** Run a computation whose calls are logged as [L] inside one logging
    [L']. *)
Definition relabel {L L' A} (g : L -> L') (m : Eff L A) : Eff L' A :=
  (fst m, map g (snd m)).

End Eff.

Notation "'do' x <~ m 'in' f" := (Eff.bind m (fun x => f))
  (at level 10, x name, m at level 100, f at level 200, only parsing).

(** ** The host: knobs and nodes *)

(** The two mutating calls the tool makes on a knob; [None] is the call
    without an index. *)
Inductive call :=
| SetValue (v : PyVal) (index : option Z)
| SetExpression (expr : string) (index : option Z).

(** What [knob.value()] returns, as far as the tool looks at it: text, or an
    object without [strip] of which only the truth value is used. *)
Inductive KValue :=
| VText (s : string)
| VOther (truth : bool).

(** A knob as the host presents it.  A query answers [None] when it raises
    (an [Exception]); [knob_accepts] gives the exception a mutating call
    raises, [None] when it returns. *)
Record Knob := {
  knob_name : string;
  is_String_Knob : bool;
  is_Enumeration_Knob : bool;
  is_Tab_Text_PyScript_Knob : bool;
  knob_arraySize : option Z;
  knob_value : option KValue;
  knob_values : option (list string);
  knob_visible : option bool;
  knob_enabled : option bool;
  knob_accepts : call -> option exn
}.

Record Node := {
  node_name : string;
  node_Class : string;
  node_knobs : list string;
  node_knob : string -> option Knob
}.

(** What the host logs during one run of the tool. *)
Inductive event :=
| EMessage (text : string)
| EUndoBegin (label : string)
| EUndoEnd
| EKnobCall (node : string) (c : call).

Definition host_call (knob : Knob) (c : call) : Eff call unit :=
  (match knob_accepts knob c with Some e => Raise e | None => Return tt end,
   [c]).

Definition nl : string := String "010"%char EmptyString.

(** Behaviour of the interpreter that the program relies on and does not fix:
    [repr] of a float and of a string, and the order in which a set is
    iterated (some enumeration of its elements). *)
Class PyRuntime := {
  float_repr : PyFloat -> string;
  str_repr : string -> string;
  set_iter : gset string -> list string;
  set_iter_perm : forall X : gset string, set_iter X ≡ₚ elements X
}.

Section Str.
Context `{PyRuntime}.

Definition num_str (x : PyNumber) : string :=
  match x with
  | NInt z => pretty z
  | NFloat f => float_repr f
  end.

(** [str(v)] *)
Definition py_str (v : PyVal) : string :=
  match v with
  | PBool true => "True"
  | PBool false => "False"
  | PInt z => pretty z
  | PFloat f => float_repr f
  | PNumList l => "[" +:+ PyStr.join ", " (map num_str l) +:+ "]"
  | PStrList l => "[" +:+ PyStr.join ", " (map str_repr l) +:+ "]"
  | PStr s => s
  end.
End Str.

Definition EXCLUDE_KNOBS : gset string :=
  list_to_set
    [ "autolabel"; "bookmark"; "cached"; "enable"; "enable_mix_luminance";
      "help"; "hide_input"; "tile_color"; "gl_color"; "icon"; "indicators";
      "inject"; "Mask"; "maskFrom"; "maskFromFlag"; "mix_luminance";
      "note_font_color"; "onDestroy"; "panel"; "process_mask";
      "postage_stamp"; "postage_stamp_frame"; "useLifetime"; "selected";
      "xpos"; "ypos" ].

(** [sorted(X)] on a set of strings: Python compares text code point by code
    point. *)
Definition sorted `{PyRuntime} (X : gset string) : list string :=
  merge_sort String.le (set_iter X).

(** The per-target loop inside the undo transaction.  The two files have the
    same text here ([src/MassKnobModifier.py] 241-254,
    [src/MassKnobModifier/MassKnobModifier.py] 419-431) and differ in the
    [_set_knob_value_or_expression] they call. *)
Section Loop.
Variable set_knob : Knob -> option string -> Eff call string.
Variable knob_name : string.
Variable value_str : option string.

(** The loop variables [changed], [errors], [mode_used]. *)
Definition loop_vars : Type := nat * list string * option string.

Fixpoint target_loop (targets : list Node) (vars : loop_vars)
    : Eff event loop_vars :=
  match targets with
  | [] => Eff.ret vars
  | node :: rest =>
      match node_knob node knob_name with
      | None => target_loop rest vars
      | Some k =>
          let '(changed, errors, mode_used) := vars in
          do vars' <~
            Eff.try_except is_Exception
              (do mode <~ Eff.relabel (EKnobCall (node_name node))
                            (set_knob k value_str) in
               Eff.ret (S changed, errors, Some mode))
              (fun e =>
                 Eff.ret (changed,
                          errors ++ [node_name node +:+ ": " +:+ exn_msg e],
                          mode_used)) in
          target_loop rest vars'
      end
  end.

Definition apply_loop (targets : list Node) : Eff event loop_vars :=
  do _ <~ Eff.emit (EUndoBegin "Mass Knob Modifier") in
  Eff.finally (target_loop targets (O, [], None)) (Eff.emit EUndoEnd).

End Loop.

(** What the host gives one run of the tool: the selection, the nodes of the
    script, and what the user left in the dialog. *)
Record Session := {
  selectedNodes : list Node;
  allNodes : list Node;
  showModalDialog : bool;
  modeValue : string;
  classValue : string;
  knobName : option string;
  valueString : option string
}.

(** [isinstance(parsed, list)], with the items of the list. *)
Definition list_items (v : PyVal) : option (list PyVal) :=
  match v with
  | PNumList l => Some (map num_val l)
  | PStrList l => Some (map PStr l)
  | _ => None
  end.

(** [value_str is None or str(value_str).strip() == ""] *)
Definition is_blank (value_str : option string) : bool :=
  match value_str with
  | None => true
  | Some v => bool_decide (PyStr.strip v = "")
  end.

(** The tail of the report, lines 266-270 and 448-452. *)
Definition error_lines (msg : string) (errors : list string) : string :=
  match errors with
  | [] => msg
  | _ =>
      let msg := msg +:+ nl +:+ "Errors: " +:+ pretty (length errors) in
      let msg := msg +:+ nl +:+ PyStr.join nl (take 10 errors) in
      if bool_decide (10 < length errors)%nat then msg +:+ nl +:+ "..." else msg
  end.

(** [shown_value], lines 257-259 and 433-435. *)
Definition shown_value (value_str : string) : string :=
  let shown := PyStr.strip value_str in
  if PyStr.startswith "="%char shown then PyStr.strip (PyStr.tail shown)
  else shown.

(** ** The literal parser, standalone script ([src/MassKnobModifier.py]) *)

Module Standalone.
Import PyStr PyNum.

(** The [for p in parts] loop of [_parse_value]: [parsed] grows by one
    number per part; the first part that is no number returns [parts]. *)
Fixpoint _parse_value_loop (parts : list string) (parsed : list PyNumber)
    (todo : list string) : PyVal :=
  match todo with
  | [] => PNumList parsed
  | p :: todo' =>
      match (if contains "."%char p || contains "e"%char (lower p)
             then NFloat <$> py_float p else NInt <$> py_int p) with
      | Some x => _parse_value_loop parts (parsed ++ [x]) todo'
      | None => PStrList parts
      end
  end.

Definition _parse_value (value_str : option string) : result PyVal :=
  match value_str with
  | None => Raise (Exn ValueError "Empty value.")
  | Some value_str =>
      let v := strip value_str in
      if decide (v = "") then Raise (Exn ValueError "Empty value.")
      else
        let lower := lower v in
        if mem lower ["true"; "yes"; "on"] then Return (PBool true)
        else if mem lower ["false"; "no"; "off"] then Return (PBool false)
        else
          match (if contains "."%char v || contains "e"%char lower
                 then PFloat <$> py_float v else PInt <$> py_int v) with
          | Some x => Return x
          | None =>
              if contains ","%char v then
                let parts := map strip (split ","%char v) in
                Return (_parse_value_loop parts [] parts)
              else Return (PStr v)
          end
  end.

(** The [for i in range(n)] loop of the expression branch; the handler of
    [TypeError] binds the whole knob and breaks. *)
Fixpoint setExpression_loop (knob : Knob) (expr : string) (todo : list Z)
    : Eff call unit :=
  match todo with
  | [] => Eff.ret tt
  | i :: todo' =>
      do go_on <~
        Eff.try_except is_TypeError
          (do _ <~ host_call knob (SetExpression expr (Some i)) in
           Eff.ret true)
          (fun _ =>
             do _ <~ host_call knob (SetExpression expr None) in
             Eff.ret false) in
      if go_on then setExpression_loop knob expr todo' else Eff.ret tt
  end.

(** The [for i, val in enumerate(parsed)] loop of the value branch. *)
Fixpoint setValue_loop (knob : Knob) (parsed : PyVal) (i : Z)
    (todo : list PyVal) : Eff call unit :=
  match todo with
  | [] => Eff.ret tt
  | val :: todo' =>
      do go_on <~
        Eff.try_except is_TypeError
          (do _ <~ host_call knob (SetValue val (Some i)) in Eff.ret true)
          (fun _ =>
             do _ <~ host_call knob (SetValue parsed None) in
             Eff.ret false) in
      if go_on then setValue_loop knob parsed (i + 1) todo' else Eff.ret tt
  end.

Definition _set_knob_value_or_expression (knob : Knob)
    (raw_value_str : option string) : Eff call string :=
  match raw_value_str with
  | None => Eff.raise (Exn ValueError "Empty value.")
  | Some raw_value_str =>
      let s := strip raw_value_str in
      if decide (s = "") then Eff.raise (Exn ValueError "Empty value.")
      else if startswith "="%char s then
        let expr := strip (tail s) in
        if decide (expr = "") then
          Eff.raise (Exn ValueError "Empty expression.")
        else
          let n := match knob_arraySize knob with Some n => n | None => 1 end in
          do _ <~
            (if negb (n =? 0) && (1 <? n)
             then setExpression_loop knob expr (seqZ 0 n)
             else host_call knob (SetExpression expr None)) in
          Eff.ret "expression"
      else
        do parsed <~ (_parse_value (Some s), []) in
        do _ <~
          match list_items parsed with
          | Some items => setValue_loop knob parsed 0 items
          | None => host_call knob (SetValue parsed None)
          end in
        Eff.ret "value"
  end.

Section Driver.
Context `{PyRuntime}.

(** The filter loop over [common], lines 190-212. *)
Fixpoint visible_loop (first : Node) (visible_common : list string)
    (todo : list string) : list string :=
  match todo with
  | [] => visible_common
  | k :: todo' =>
      match node_knob first k with
      | None => visible_loop first visible_common todo'
      | Some knob =>
          if mem k ["knobChanged"; "onCreate"; "updateUI"] then
            visible_loop first visible_common todo'
          else if
            match knob_visible knob with
            | None => false
            | Some false => true
            | Some true =>
                match knob_enabled knob with
                | None => false
                | Some e => negb e
                end
            end
          then visible_loop first visible_common todo'
          else if is_Tab_Text_PyScript_Knob knob then
            visible_loop first visible_common todo'
          else visible_loop first (visible_common ++ [k]) todo'
      end
  end.

Definition report (knob_name value_str : string) (vars : loop_vars)
    : string :=
  let '(changed, errors, mode_used) := vars in
  let msg :=
    if decide (mode_used = Some "expression") then
      "Changed '" +:+ knob_name +:+ "' expression to "
        +:+ shown_value value_str +:+ " on " +:+ pretty changed +:+ " nodes."
    else
      "Changed '" +:+ knob_name +:+ "' to "
        +:+ shown_value value_str +:+ " on " +:+ pretty changed +:+ " nodes." in
  error_lines msg errors.

(** Lines 177-218 of [mass_knob_modifier]: the message that ends the
    run, or the list handed to the panel as the dropdown. *)
Definition visible_common_of (first : Node) (rest : list Node)
    : string + list string :=
  let common :=
    fold_left (fun common node => common ∩ list_to_set (node_knobs node))
      rest (list_to_set (node_knobs first) : gset string) in
  if decide (common = ∅) then inl "No common knobs found."
  else
    let common := common ∖ EXCLUDE_KNOBS in
    let visible_common := visible_loop first [] (set_iter common) in
    let visible_common := sorted (list_to_set visible_common) in
    match visible_common with
    | [] => inl "No usable common knobs found."
    | _ => inr visible_common
    end.

Definition mass_knob_modifier (ses : Session) : Eff event unit :=
  match selectedNodes ses with
  | [] => Eff.emit (EMessage "No nodes selected.")
  | first :: rest =>
      let nodes := first :: rest in
      match visible_common_of first rest with
      | inl msg => Eff.emit (EMessage msg)
      | inr visible_common =>
          if negb (showModalDialog ses) then Eff.ret tt
          else if is_blank (knobName ses) then
            Eff.emit (EMessage "Please choose a knob.")
          else if is_blank (valueString ses) then
            Eff.emit (EMessage "Value cannot be empty.")
          else
            let knob_name := default "" (knobName ses) in
            let value_str := valueString ses in
            do vars <~
              apply_loop _set_knob_value_or_expression knob_name
                value_str nodes in
            Eff.emit
              (EMessage (report knob_name (default "" value_str) vars))
      end
  end.

End Driver.

End Standalone.

(** ** The package version ([src/MassKnobModifier/MassKnobModifier.py]) *)

Module Package.
Import PyStr PyNum.

Fixpoint _parse_value_loop (parts : list string) (parsed : list PyNumber)
    (todo : list string) : PyVal :=
  match todo with
  | [] => PNumList parsed
  | p :: todo' =>
      match (if contains "."%char p || contains "e"%char (lower p)
             then NFloat <$> py_float p else NInt <$> py_int p) with
      | Some x => _parse_value_loop parts (parsed ++ [x]) todo'
      | None => PStrList parts
      end
  end.

Definition _parse_value (value_str : option string) : result PyVal :=
  match value_str with
  | None => Raise (Exn ValueError "Empty value.")
  | Some value_str =>
      let v := strip value_str in
      if decide (v = "") then Raise (Exn ValueError "Empty value.")
      else
        let lower := lower v in
        if mem lower ["true"; "yes"; "on"] then Return (PBool true)
        else if mem lower ["false"; "no"; "off"] then Return (PBool false)
        else
          match (if contains "."%char v || contains "e"%char lower
                 then PFloat <$> py_float v else PInt <$> py_int v) with
          | Some x => Return x
          | None =>
              if contains ","%char v then
                let parts := map strip (split ","%char v) in
                Return (_parse_value_loop parts [] parts)
              else Return (PStr v)
          end
  end.

(** The [for i, o in enumerate(opts)] loop of [_coerce_for_knob]. *)
Fixpoint lower_match (low : string) (i : Z) (opts : list string)
    : option Z :=
  match opts with
  | [] => None
  | o :: opts' =>
      if decide (lower o = low) then Some i else lower_match low (i + 1) opts'
  end.

Section Tool.
Context `{PyRuntime}.

Definition _coerce_for_knob (knob : Knob) (parsed : PyVal) : PyVal :=
  if is_String_Knob knob then
    match parsed with
    | PNumList l => PStr (join ", " (map num_str l))
    | PStrList l => PStr (join ", " l)
    | _ => PStr (py_str parsed)
    end
  else
    match parsed with
    | PStr p =>
        if is_Enumeration_Knob knob then
          match knob_values knob with
          | None => parsed
          | Some opts =>
              if mem p opts then
                match index p opts with
                | Some i => PInt i
                | None => parsed
                end
              else
                match lower_match (lower p) 0 opts with
                | Some i => PInt i
                | None => parsed
                end
          end
        else parsed
    | _ => parsed
    end.

(** Lines 148-159, the label special case; every [Exception] raised in
    it is dropped and leaves [parsed] as it was. *)
Definition label_text (knob : Knob) (s : string) (parsed : PyVal)
    : PyVal :=
  if bool_decide (knob_name knob = "label") && negb (startswith "="%char s)
  then
    match knob_value knob with
    | None => parsed
    | Some existing =>
        let new_text := py_str parsed in
        match existing with
        | VText e =>
            if bool_decide (e ≠ "") && bool_decide (strip e ≠ "")
            then PStr (rstrip e +:+ nl +:+ new_text)
            else PStr new_text
        | VOther true => parsed
        | VOther false => PStr new_text
        end
    end
  else parsed.

Fixpoint setExpression_loop (knob : Knob) (expr : string) (todo : list Z)
    : Eff call unit :=
  match todo with
  | [] => Eff.ret tt
  | i :: todo' =>
      do go_on <~
        Eff.try_except is_TypeError
          (do _ <~ host_call knob (SetExpression expr (Some i)) in
           Eff.ret true)
          (fun _ =>
             do _ <~ host_call knob (SetExpression expr None) in
             Eff.ret false) in
      if go_on then setExpression_loop knob expr todo' else Eff.ret tt
  end.

Fixpoint setValue_loop (knob : Knob) (parsed : PyVal) (i : Z)
    (todo : list PyVal) : Eff call unit :=
  match todo with
  | [] => Eff.ret tt
  | val :: todo' =>
      do go_on <~
        Eff.try_except is_TypeError
          (do _ <~ host_call knob (SetValue val (Some i)) in Eff.ret true)
          (fun _ =>
             do _ <~ host_call knob (SetValue parsed None) in
             Eff.ret false) in
      if go_on then setValue_loop knob parsed (i + 1) todo' else Eff.ret tt
  end.

Definition _set_knob_value_or_expression (knob : Knob)
    (raw_value_str : option string) : Eff call string :=
  match raw_value_str with
  | None => Eff.raise (Exn ValueError "Empty value.")
  | Some raw_value_str =>
      let s := strip raw_value_str in
      if decide (s = "") then Eff.raise (Exn ValueError "Empty value.")
      else if startswith "="%char s then
        let expr := strip (tail s) in
        if decide (expr = "") then
          Eff.raise (Exn ValueError "Empty expression.")
        else
          let n :=
            match knob_arraySize knob with Some n => n | None => 1 end in
          do _ <~
            (if negb (n =? 0) && (1 <? n)
             then setExpression_loop knob expr (seqZ 0 n)
             else host_call knob (SetExpression expr None)) in
          Eff.ret "expression"
      else
        do parsed <~ (_parse_value (Some s), []) in
        let parsed := _coerce_for_knob knob parsed in
        let parsed := label_text knob s parsed in
        do _ <~
          match list_items parsed with
          | Some items => setValue_loop knob parsed 0 items
          | None => host_call knob (SetValue parsed None)
          end in
        Eff.ret "value"
  end.

Definition _nodes_by_class (class_name : option string)
    (all_nodes : list Node) : list Node :=
  match class_name with
  | None => []
  | Some class_name =>
      let target := strip class_name in
      if decide (target = "") then []
      else
        let exact :=
          filter (fun n => node_Class n = target) all_nodes in
        match exact with
        | _ :: _ => exact
        | [] =>
            let t_low := lower target in
            filter (fun n => lower (node_Class n) = t_low) all_nodes
        end
  end.

Fixpoint visible_loop (first : Node) (visible_common : list string)
    (todo : list string) : list string :=
  match todo with
  | [] => visible_common
  | k :: todo' =>
      match node_knob first k with
      | None => visible_loop first visible_common todo'
      | Some knob =>
          if mem k ["knobChanged"; "onCreate"; "updateUI"] then
            visible_loop first visible_common todo'
          else if
            match knob_visible knob with
            | None => false
            | Some false => true
            | Some true =>
                match knob_enabled knob with
                | None => false
                | Some e => negb e
                end
            end
          then visible_loop first visible_common todo'
          else if is_Tab_Text_PyScript_Knob knob then
            visible_loop first visible_common todo'
          else visible_loop first (visible_common ++ [k]) todo'
      end
  end.

Definition _common_knobs_for_nodes (nodes : list Node) : list string :=
  match nodes with
  | [] => []
  | first :: rest =>
      let common :=
        fold_left
          (fun common node => common ∩ list_to_set (node_knobs node))
          rest (list_to_set (node_knobs first) : gset string) in
      if decide (common = ∅) then []
      else
        let common := common ∖ EXCLUDE_KNOBS in
        let visible_common := visible_loop first [] (set_iter common) in
        sorted (list_to_set visible_common)
  end.

Definition _selected_node_class (ses : Session) : option string :=
  match selectedNodes ses with
  | [] => None
  | first :: _ => Some (node_Class first)
  end.

(** Lines 379-405: the message that ends the run, or the targets with
    [target_class]. *)
Definition targets_for_mode (ses : Session)
    : string + (list Node * option string) :=
  if decide (modeValue ses = "by class") then
    let target_class := classValue ses in
    match _nodes_by_class (Some target_class) (allNodes ses) with
    | [] =>
        inl ("No nodes found with class '" +:+ target_class +:+ "'." +:+ nl
             +:+ "Examples: Merge2, Blur, Grade")
    | first :: rest => inr (first :: rest, Some (node_Class first))
    end
  else if decide (modeValue ses = "by class from selection") then
    match _selected_node_class ses with
    | None => inl "Select a node first (to choose the class)."
    | Some target_class =>
        if decide (target_class = "") then
          inl "Select a node first (to choose the class)."
        else
          match _nodes_by_class (Some target_class) (allNodes ses) with
          | [] => inl ("No nodes found with class '" +:+ target_class +:+ "'.")
          | first :: rest => inr (first :: rest, Some (node_Class first))
          end
    end
  else
    match selectedNodes ses with
    | [] => inl "No nodes selected."
    | targets => inr (targets, None)
    end.

Definition report (knob_name value_str : string)
    (target_class : option string) (vars : loop_vars) : string :=
  let '(changed, errors, mode_used) := vars in
  let what :=
    if decide (mode_used = Some "expression")
    then "Changed '" +:+ knob_name +:+ "' expression to "
    else "Changed '" +:+ knob_name +:+ "' to " in
  let msg :=
    match target_class with
    | Some (String c cls) =>
        what +:+ shown_value value_str +:+ " on all " +:+ pretty changed
          +:+ " " +:+ String c cls +:+ " nodes."
    | _ =>
        what +:+ shown_value value_str +:+ " on " +:+ pretty changed
          +:+ " nodes."
    end in
  error_lines msg errors.

Definition mass_knob_modifier (ses : Session) : Eff event unit :=
  if negb (showModalDialog ses) then Eff.ret tt
  else
    let value_str := valueString ses in
    let knob_name := knobName ses in
    if is_blank value_str then
      Eff.emit (EMessage "Value cannot be empty.")
    else
      match targets_for_mode ses with
      | inl msg => Eff.emit (EMessage msg)
      | inr (targets, target_class) =>
          match _common_knobs_for_nodes targets with
          | [] => Eff.emit (EMessage "No usable common knobs found.")
          | item :: items =>
              let knob_items := item :: items in
              let knob_name :=
                match knob_name with
                | Some k => if mem k knob_items then k else item
                | None => item
                end in
              do vars <~
                apply_loop _set_knob_value_or_expression knob_name
                  value_str targets in
              Eff.emit
                (EMessage
                   (report knob_name (default "" value_str) target_class
                      vars))
          end
      end.

End Tool.

End Package.

(** ** The literal grammar in the words of the specification *)

Module Spec.
Import PyStr PyNum.

(** "If the text contains [.] or the letter [e] (case-insensitive), parse
    as a float; else parse as an integer." *)
Definition numeric (t : string) : option PyNumber :=
  if contains "."%char t || contains "e"%char (lower t)
  then NFloat <$> py_float t
  else NInt <$> py_int t.

(** Section 4.3 step 3, on the trimmed text. *)
Definition literal (v : string) : PyVal :=
  if mem (lower v) ["true"; "yes"; "on"] then PBool true
  else if mem (lower v) ["false"; "no"; "off"] then PBool false
  else
    match numeric v with
    | Some x => num_val x
    | None =>
        if contains ","%char v then
          let parts := map strip (split ","%char v) in
          match mapM numeric parts with
          | Some numbers => PNumList numbers
          | None => PStrList parts
          end
        else PStr v
    end.

End Spec.

(** ** The reducer and the per-target outcome, stated apart from the loops *)

(** The test of one name inside the filter loop. *)
Definition keeps (first : Node) (k : string) : bool :=
  match node_knob first k with
  | None => false
  | Some knob =>
      negb (PyStr.mem k ["knobChanged"; "onCreate"; "updateUI"])
      && negb match knob_visible knob with
              | None => false
              | Some false => true
              | Some true =>
                  match knob_enabled knob with
                  | None => false
                  | Some e => negb e
                  end
              end
      && negb (is_Tab_Text_PyScript_Knob knob)
  end.

(** What the per-target step of the driver does with one node. *)
Inductive attempt :=
| Skipped
| Applied (mode : string) (calls : list call)
| Failed (e : exn) (calls : list call)
| Escaped (e : exn) (calls : list call).

Definition attempt_of (set_knob : Knob -> option string -> Eff call string)
    (knob_name : string) (value_str : option string) (node : Node) : attempt :=
  match node_knob node knob_name with
  | None => Skipped
  | Some k =>
      match set_knob k value_str with
      | (Return mode, calls) => Applied mode calls
      | (Raise e, calls) =>
          if is_Exception e then Failed e calls else Escaped e calls
      end
  end.

Definition attempt_calls (a : attempt) : list call :=
  match a with
  | Skipped => []
  | Applied _ calls | Failed _ calls | Escaped _ calls => calls
  end.

Definition is_applied (a : attempt) : bool :=
  match a with Applied _ _ => true | _ => false end.

Definition is_escaped (a : attempt) : bool :=
  match a with Escaped _ _ => true | _ => false end.

(** The error entry, the host calls and the mode a target leaves behind. *)
Definition error_entry (attempt : Node -> attempt) (node : Node)
    : option string :=
  match attempt node with
  | Failed e _ => Some (node_name node +:+ ": " +:+ exn_msg e)
  | _ => None
  end.

Definition target_log (attempt : Node -> attempt) (node : Node) : list event :=
  EKnobCall (node_name node) <$> attempt_calls (attempt node).

Definition mode_after (attempt : Node -> attempt) (mode_used : option string)
    (targets : list Node) : option string :=
  fold_left
    (fun mode node =>
       match attempt node with Applied m _ => Some m | _ => mode end)
    targets mode_used.

(** A call that binds the expression [text], at an index or on the whole
    knob. *)
Definition is_bind_of (text : string) (c : call) : Prop :=
  exists index, c = SetExpression text index.

(** Transactions left open by a log: begins minus ends. *)
Fixpoint open_transactions (log : list event) : Z :=
  match log with
  | [] => 0
  | EUndoBegin _ :: log' => 1 + open_transactions log'
  | EUndoEnd :: log' => open_transactions log' - 1
  | _ :: log' => open_transactions log'
  end.

Definition is_knob_call (ev : event) : bool :=
  match ev with EKnobCall _ _ => true | _ => false end.

(** ** A small scene for the concrete runs *)

Module Demo.

Definition runtime : PyRuntime :=
  {| float_repr := fun _ => "nan";
     str_repr := fun s => "'" +:+ s +:+ "'";
     set_iter := elements;
     set_iter_perm := fun X => reflexivity (elements X) |}.

Definition accept_all : call -> option exn := fun _ => None.

(** A handle without per-index operations. *)
Definition no_index : call -> option exn :=
  fun c =>
    match c with
    | SetValue _ (Some _) | SetExpression _ (Some _) =>
        Some (Exn TypeError "index not supported")
    | _ => None
    end.

Definition reject_all : call -> option exn :=
  fun _ => Some (Exn OtherException "knob is locked").

Definition interrupted : call -> option exn :=
  fun _ => Some (Exn NonException "KeyboardInterrupt").

Definition knob (name : string) (is_string is_enum : bool) (arity : Z)
    (value : KValue) (options : list string) (accepts : call -> option exn)
    : Knob :=
  {| knob_name := name;
     is_String_Knob := is_string;
     is_Enumeration_Knob := is_enum;
     is_Tab_Text_PyScript_Knob := false;
     knob_arraySize := Some arity;
     knob_value := Some value;
     knob_values := Some options;
     knob_visible := Some true;
     knob_enabled := Some true;
     knob_accepts := accepts |}.

Definition label_knob : Knob :=
  knob "label" true false 1 (VText "Pass1") [] accept_all.

Definition frame_knob : Knob :=
  knob "frame" true false 1 (VText "1") [] accept_all.

Definition filter_knob : Knob :=
  knob "filter" false true 1 (VOther true) ["nearest"; "bilinear"; "cubic"]
    accept_all.

Definition size_knob (accepts : call -> option exn) : Knob :=
  knob "size" false false 3 (VOther true) [] accepts.

Definition node (name cls : string) (knobs : list Knob) : Node :=
  {| node_name := name;
     node_Class := cls;
     node_knobs := map knob_name knobs;
     node_knob := fun k => list_find (fun kn => knob_name kn = k) knobs
                            ≫= fun found => Some (snd found) |}.

Definition T1 : Node := node "T1" "Blur" [size_knob accept_all; label_knob].
Definition T2 : Node := node "T2" "Grade" [label_knob].
Definition T3 : Node := node "T3" "Blur" [size_knob reject_all; label_knob].
Definition T4 : Node := node "T4" "blur" [size_knob no_index; label_knob].
Definition T5 : Node := node "T5" "Blur" [size_knob interrupted; label_knob].

Definition session (targets : list Node) (value : string) : Session :=
  {| selectedNodes := targets;
     allNodes := targets;
     showModalDialog := true;
     modeValue := "by selection";
     classValue := "";
     knobName := Some "size";
     valueString := Some value |}.

End Demo.

(** ** The dialog of the package version (class [MassKnobModifierPanel]) *)

(** The knob handed to [knobChanged], as far as the method tells knobs
    apart. *)
Inductive panel_knob :=
| ModeKnob
| ClassNameKnob
| UpdateButton
| OtherPanelKnob.

(** The calls the panel methods make on the host. *)
Inductive panel_event :=
| PSetVisible (k : panel_knob) (visible : bool)
| PSetValues (items : list string)
| PSetValue (item : string)
| PMessage (text : string).

Module Panel.
Section Methods.
Context `{PyRuntime}.

(** Lines 295-305; [modeValue] is [self.mode.value()]. *)
Definition _apply_mode_visibility (ses : Session) : Eff panel_event unit :=
  let m := modeValue ses in
  if decide (m = "by selection") then
    do _ <~ Eff.emit (PSetVisible ClassNameKnob false) in
    Eff.emit (PSetVisible UpdateButton false)
  else if decide (m = "by class") then
    do _ <~ Eff.emit (PSetVisible ClassNameKnob true) in
    Eff.emit (PSetVisible UpdateButton true)
  else
    do _ <~ Eff.emit (PSetVisible ClassNameKnob false) in
    Eff.emit (PSetVisible UpdateButton true).

(** Lines 314-348; [classValue] is [self.class_name.value()] and [knobName]
    is [self.knob_enum.value()]. *)
Definition _refresh_knob_dropdown_for_mode (ses : Session)
    : Eff panel_event unit :=
  let m := modeValue ses in
  let found : option (string + list Node) :=
    if decide (m = "by class") then
      let class_name := classValue ses in
      match Package._nodes_by_class (Some class_name) (allNodes ses) with
      | [] =>
          Some (inl ("No nodes found with class '" +:+ class_name +:+ "'."
                     +:+ nl +:+ "Examples: Merge2, Blur, Grade"))
      | targets => Some (inr targets)
      end
    else if decide (m = "by class from selection") then
      match Package._selected_node_class ses with
      | None => Some (inl "Select a node first (to choose the class).")
      | Some class_name =>
          if decide (class_name = "") then
            Some (inl "Select a node first (to choose the class).")
          else
            match Package._nodes_by_class (Some class_name) (allNodes ses) with
            | [] =>
                Some (inl ("No nodes found with class '" +:+ class_name
                           +:+ "'."))
            | targets => Some (inr targets)
            end
      end
    else None in
  match found with
  | None => Eff.ret tt
  | Some (inl text) => Eff.emit (PMessage text)
  | Some (inr targets) =>
      match Package._common_knobs_for_nodes targets with
      | [] =>
          Eff.emit
            (PMessage
               ("No usable common knobs found for class '"
                +:+ match targets with
                    | first :: _ => node_Class first
                    | [] => ""
                    end +:+ "'."))
      | item :: items =>
          let knob_items := item :: items in
          let current := knobName ses in
          do _ <~ Eff.emit (PSetValues knob_items) in
          Eff.emit
            (PSetValue
               match current with
               | Some c => if PyStr.mem c knob_items then c else item
               | None => item
               end)
      end
  end.

(** Lines 307-312. *)
Definition knobChanged (k : panel_knob) (ses : Session)
    : Eff panel_event unit :=
  do _ <~
    match k with
    | ModeKnob => _apply_mode_visibility ses
    | _ => Eff.ret tt
    end in
  match k with
  | UpdateButton => _refresh_knob_dropdown_for_mode ses
  | _ => Eff.ret tt
  end.

End Methods.
End Panel.

(** ** Measures used in the statements *)

(** How often the character [c] occurs in [s]. *)
Fixpoint count_char (c : ascii) (s : string) : nat :=
  match s with
  | EmptyString => O
  | String d s' => if decide (d = c) then S (count_char c s') else count_char c s'
  end.


(** The calls of a list assignment that starts at index [k]. *)
Definition indexed_calls (k : Z) (items : list PyVal) : list call :=
  imap (fun i val => SetValue val (Some (k + Z.of_nat i))) items.

Definition is_message (ev : event) : bool :=
  match ev with EMessage _ => true | _ => false end.

(** How a run on a knob ended: the last call made is the one that raised the
    exception of the run, or, when the run returned, one the host accepted. *)
Definition ends_with_call {A} (knob : Knob) (run : Eff call A) : Prop :=
  match fst run with
  | Raise e => exists c, last (snd run) = Some c /\ knob_accepts knob c = Some e
  | Return _ => exists c, last (snd run) = Some c /\ knob_accepts knob c = None
  end.

(** The result of the whole-value call that follows a [TypeError]. *)
Definition whole_value_result (knob : Knob) (parsed : PyVal) : result string :=
  match knob_accepts knob (SetValue parsed None) with
  | None => Return "value"
  | Some e => Raise e
  end.


(** The two modes of the panel that resolve targets by class. *)
Definition is_class_mode (mode : string) : bool :=
  bool_decide (mode = "by class")
  || bool_decide (mode = "by class from selection").


(** ** Facts about the text primitives *)

Section TextFacts.
Import PyStr.

Lemma rstrip_cons_nonspace c t :
  is_space c = false -> rstrip (String c t) = String c (rstrip t).
Proof. intros Hc. simpl. rewrite Hc. by destruct (rstrip t). Qed.

Lemma rstrip_idemp s : rstrip (rstrip s) = rstrip s.
Proof.
  induction s as [|c t IH]; [done|].
  simpl. destruct (rstrip t) as [|d r] eqn:E.
  - destruct (is_space c) eqn:Hc; [done|]. simpl. by rewrite Hc.
  - change (rstrip (String c (String d r)) = String c (String d r)).
    simpl in IH |- *. destruct (rstrip r); by rewrite IH.
Qed.

Lemma lstrip_head s c t : lstrip s = String c t -> is_space c = false.
Proof.
  induction s as [|d u IH]; [done|]. simpl.
  destruct (is_space d) eqn:Hd; [done|]. by intros [= <- _].
Qed.

Lemma strip_idemp s : strip (strip s) = strip s.
Proof.
  unfold strip. destruct (lstrip s) as [|c t] eqn:E; [done|].
  pose proof (lstrip_head _ _ _ E) as Hc.
  rewrite (rstrip_cons_nonspace _ _ Hc). simpl. rewrite Hc.
  rewrite <- (rstrip_cons_nonspace _ _ Hc). apply rstrip_idemp.
Qed.

Lemma strip_nonempty_inv s : strip s <> "" -> s <> "".
Proof. by intros Hs ->. Qed.

End TextFacts.

(** ** The literal parser *)

Section ParserFacts.
Import PyStr PyNum.

Lemma package_loop_mapM parts parsed todo :
  Package._parse_value_loop parts parsed todo =
  match mapM Spec.numeric todo with
  | Some numbers => PNumList (parsed ++ numbers)
  | None => PStrList parts
  end.
Proof.
  revert parsed. induction todo as [|p todo IH]; intros parsed; simpl.
  - by rewrite app_nil_r.
  - fold (Spec.numeric p). destruct (Spec.numeric p) as [x|]; simpl; [|done].
    rewrite IH. destruct (mapM Spec.numeric todo); simpl; [|done].
    by rewrite <- app_assoc.
Qed.

Lemma standalone_loop_package parts parsed todo :
  Standalone._parse_value_loop parts parsed todo =
  Package._parse_value_loop parts parsed todo.
Proof.
  revert parsed. induction todo as [|p todo IH]; intros parsed; simpl; [done|].
  destruct (if contains "."%char p || contains "e"%char (lower p)
            then NFloat <$> py_float p else NInt <$> py_int p); [apply IH|done].
Qed.

Lemma standalone_parse_package value_str :
  Standalone._parse_value value_str = Package._parse_value value_str.
Proof.
  destruct value_str as [s|]; [|done].
  unfold Standalone._parse_value, Package._parse_value.
  repeat case_match; try done; by rewrite standalone_loop_package.
Qed.

Lemma package_parse_literal s :
  Package._parse_value (Some s) =
  if decide (strip s = "") then Raise (Exn ValueError "Empty value.")
  else Return (Spec.literal (strip s)).
Proof.
  unfold Package._parse_value, Spec.literal, Spec.numeric.
  destruct (decide (strip s = "")); [done|].
  destruct (mem (lower (strip s)) ["true"; "yes"; "on"]); [done|].
  destruct (mem (lower (strip s)) ["false"; "no"; "off"]); [done|].
  destruct (contains "."%char (strip s) || contains "e"%char (lower (strip s))).
  - destruct (py_float (strip s)); simpl; [done|].
    destruct (contains ","%char (strip s)); [|done].
    by rewrite package_loop_mapM.
  - destruct (py_int (strip s)); simpl; [done|].
    destruct (contains ","%char (strip s)); [|done].
    by rewrite package_loop_mapM.
Qed.

Lemma package_parse_stripped s :
  strip s <> "" ->
  Package._parse_value (Some (strip s)) = Return (Spec.literal (strip s)).
Proof.
  intros Hs. rewrite package_parse_literal, strip_idemp.
  by destruct (decide (strip s = "")).
Qed.

End ParserFacts.

(** C1. Both copies of [_parse_value] follow the order of section 4.3 step 3
    on the trimmed text: the boolean words first, then the number (float when
    the text has a dot or an e, integer otherwise), then the comma list
    (numbers when every trimmed part is one, else the trimmed parts as text),
    then the text itself; input that is blank after trimming raises
    [ValueError("Empty value.")].  ["1,a,3"] gives the text list and
    ["1,2,3"] the integer list. *)
Theorem parse_value_follows_literal_order :
  (forall s : string,
     Package._parse_value (Some s) =
       (if decide (PyStr.strip s = "") then Raise (Exn ValueError "Empty value.")
        else Return (Spec.literal (PyStr.strip s)))
     /\ Standalone._parse_value (Some s) = Package._parse_value (Some s))
  /\ Package._parse_value (Some "1,a,3") = Return (PStrList ["1"; "a"; "3"])
  /\ Package._parse_value (Some "1,2,3") =
       Return (PNumList [NInt 1; NInt 2; NInt 3])
  /\ Package._parse_value (Some "3") = Return (PInt 3)
  /\ Package._parse_value (Some "3.0") = Return (PFloat (FDec false 30 (-1)))
  /\ Package._parse_value (Some "3e2") = Return (PFloat (FDec false 3 2))
  /\ Package._parse_value (Some "YES") = Return (PBool true)
  /\ Package._parse_value (Some "OFF") = Return (PBool false).
Proof.
  split; [|by vm_compute].
  intros s. split; [apply package_parse_literal|apply standalone_parse_package].
Qed.

(** C10. The two copies of [_parse_value] agree on every input, [None]
    included: the same value, or the same [ValueError("Empty value.")]. *)
Theorem parse_value_copies_agree (value_str : option string) :
  Standalone._parse_value value_str = Package._parse_value value_str.
Proof.
  destruct value_str as [s|]; [|reflexivity].
  unfold Standalone._parse_value, Package._parse_value.
  destruct (decide (PyStr.strip s = "")); [reflexivity|].
  repeat case_match; try reflexivity; f_equal; apply standalone_loop_package.
Qed.

(** ** Class-based target resolution *)

(** C6. [_nodes_by_class] answers the empty list for a missing name and for
    a name that is blank after trimming; otherwise, with the trimmed name, it
    answers the nodes whose class equals it exactly when there is at least
    one, and only when there is none the nodes whose class equals it after
    lowering both sides.  Nodes keep the order of the script. *)
Theorem nodes_by_class_exact_then_caseless
    (class_name : string) (all_nodes : list Node) :
  Package._nodes_by_class None all_nodes = []
  /\ Package._nodes_by_class (Some class_name) all_nodes =
       let target := PyStr.strip class_name in
       if decide (target = "") then []
       else if decide (Exists (fun n => node_Class n = target) all_nodes)
       then filter (fun n => node_Class n = target) all_nodes
       else filter (fun n => PyStr.lower (node_Class n) = PyStr.lower target)
              all_nodes.
Proof.
  split; [reflexivity|].
  unfold Package._nodes_by_class. simpl.
  destruct (decide (PyStr.strip class_name = "")) as [|Hne]; [reflexivity|].
  set (target := PyStr.strip class_name).
  destruct (filter (fun n => node_Class n = target) all_nodes) as [|n exact] eqn:E.
  - rewrite decide_False; [reflexivity|].
    intros (n & Hin & Hn)%Exists_exists.
    assert (n ∈ filter (fun n => node_Class n = target) all_nodes) as Hf
      by by apply list_elem_of_filter.
    rewrite E in Hf. by apply elem_of_nil in Hf.
  - rewrite decide_True; [reflexivity|].
    apply Exists_exists. exists n.
    assert (n ∈ filter (fun n => node_Class n = target) all_nodes) as Hf
      by (rewrite E; left).
    apply list_elem_of_filter in Hf. tauto.
Qed.

(** ** The knob-set reducer *)

Section Reducer.

Lemma package_visible_loop_filter first acc todo :
  Package.visible_loop first acc todo =
  acc ++ filter (fun k => keeps first k) todo.
Proof.
  revert acc. induction todo as [|k todo IH]; intros acc; simpl.
  - by rewrite app_nil_r.
  - rewrite filter_cons.
    destruct (decide (keeps first k)) as [Hk|Hk]; unfold keeps in Hk;
      destruct (node_knob first k) as [knob|]; simpl in Hk;
      try (by rewrite IH); try done;
      destruct (PyStr.mem k _); simpl in Hk; try (by rewrite IH); try done;
      destruct (knob_visible knob) as [[]|]; simpl in Hk;
      try destruct (knob_enabled knob) as [[]|]; simpl in Hk;
      try (by rewrite IH); try done;
      destruct (is_Tab_Text_PyScript_Knob knob); simpl in Hk;
      try (by rewrite IH); try done;
      simpl; by rewrite IH, <- app_assoc.
Qed.

Lemma standalone_visible_loop_package first acc todo :
  Standalone.visible_loop first acc todo = Package.visible_loop first acc todo.
Proof.
  revert acc. induction todo as [|k todo IH]; intros acc; simpl; [done|].
  repeat case_match; apply IH.
Qed.

Lemma elem_of_set_iter (R : PyRuntime) (X : gset string) k :
  k ∈ set_iter X <-> k ∈ X.
Proof. by rewrite set_iter_perm, elem_of_elements. Qed.

Lemma visible_set_indep (R1 R2 : PyRuntime) first (X : gset string) :
  (list_to_set (Package.visible_loop first [] (@set_iter R1 X)) : gset string)
  = list_to_set (Package.visible_loop first [] (@set_iter R2 X)).
Proof.
  apply set_eq. intros k.
  rewrite !elem_of_list_to_set, !package_visible_loop_filter. simpl.
  by rewrite !list_elem_of_filter, !elem_of_set_iter.
Qed.

Lemma sorted_Sorted (R : PyRuntime) X : Sorted String.le (sorted X).
Proof. apply (Sorted_merge_sort String.le). Qed.

Lemma sorted_perm (R : PyRuntime) X : sorted X ≡ₚ elements X.
Proof. unfold sorted. by rewrite merge_sort_Permutation, set_iter_perm. Qed.

Lemma sorted_NoDup (R : PyRuntime) X : NoDup (sorted X).
Proof. rewrite sorted_perm. apply NoDup_elements. Qed.

Lemma elem_of_sorted (R : PyRuntime) X k : k ∈ sorted X <-> k ∈ X.
Proof. by rewrite sorted_perm, elem_of_elements. Qed.

Lemma sorted_indep (R1 R2 : PyRuntime) X : @sorted R1 X = @sorted R2 X.
Proof.
  apply (Sorted_unique String.le); [apply sorted_Sorted..|].
  by rewrite !sorted_perm.
Qed.

Lemma keeps_not_hook first k :
  keeps first k = true -> k ∉ ["knobChanged"; "onCreate"; "updateUI"].
Proof.
  unfold keeps, PyStr.mem. destruct (node_knob first k); [|done].
  intros Hk Hin. by rewrite bool_decide_eq_true_2 in Hk.
Qed.

Lemma package_common_knobs_elem (R : PyRuntime) nodes k :
  k ∈ Package._common_knobs_for_nodes nodes ->
  (k ∉ EXCLUDE_KNOBS) /\ (k ∉ ["knobChanged"; "onCreate"; "updateUI"]).
Proof.
  unfold Package._common_knobs_for_nodes.
  destruct nodes as [|first rest]; [by intros ?%elem_of_nil|].
  case_decide; [by intros ?%elem_of_nil|].
  rewrite elem_of_sorted, elem_of_list_to_set, package_visible_loop_filter.
  simpl. rewrite list_elem_of_filter, elem_of_set_iter.
  intros [Hk Hin]. split.
  - by apply elem_of_difference in Hin as [_ Hex].
  - apply (keeps_not_hook first). by destruct (keeps first k).
Qed.

End Reducer.

(** C5. [_common_knobs_for_nodes] answers a list sorted by code point and
    free of duplicates; the answer does not depend on the order in which the
    interpreter iterates sets, so two calls on the same targets agree; no
    answer holds a name of [EXCLUDE_KNOBS] or one of [knobChanged],
    [onCreate], [updateUI].  The standalone script computes the same list in
    line and hands it to the panel, unless it is empty. *)
Theorem common_knobs_sorted_nodup_stable
    (R1 R2 : PyRuntime) (nodes : list Node) :
  let items := @Package._common_knobs_for_nodes R1 nodes in
  Sorted String.le items
  /\ NoDup items
  /\ @Package._common_knobs_for_nodes R2 nodes = items
  /\ (forall k, k ∈ items ->
        (k ∉ EXCLUDE_KNOBS) /\ (k ∉ ["knobChanged"; "onCreate"; "updateUI"]))
  /\ (forall first rest, nodes = first :: rest ->
        match @Standalone.visible_common_of R2 first rest with
        | inr shown => shown = items /\ items <> []
        | inl _ => items = []
        end).
Proof.
  simpl. split_and!.
  - destruct nodes as [|first rest]; simpl; [constructor|].
    case_decide; [constructor|apply sorted_Sorted].
  - destruct nodes as [|first rest]; simpl; [constructor|].
    case_decide; [constructor|apply sorted_NoDup].
  - destruct nodes as [|first rest]; simpl; [done|].
    case_decide; [done|].
    by rewrite (visible_set_indep R2 R1), (sorted_indep R2 R1).
  - intros k. apply package_common_knobs_elem.
  - intros first rest ->. unfold Standalone.visible_common_of. simpl.
    case_decide; [done|].
    rewrite standalone_visible_loop_package.
    rewrite (visible_set_indep R2 R1), (sorted_indep R2 R1).
    by destruct (sorted _).
Qed.

(** ** The expression branch *)

Section ExpressionFacts.
Import PyStr.
Variable knob : Knob.
Variable expr : string.

Let at_index (i : Z) : call := SetExpression expr (Some i).
Let whole : call := SetExpression expr None.

Lemma setExpression_loop_all todo :
  Forall (fun i => knob_accepts knob (at_index i) = None) todo ->
  Package.setExpression_loop knob expr todo = (Return tt, at_index <$> todo).
Proof.
  induction 1 as [|i todo Hi _ IH]; [done|].
  simpl. unfold host_call. fold (at_index i). rewrite Hi. simpl.
  by rewrite IH.
Qed.

Lemma setExpression_loop_stop pre j post e :
  Forall (fun i => knob_accepts knob (at_index i) = None) pre ->
  knob_accepts knob (at_index j) = Some e ->
  Package.setExpression_loop knob expr (pre ++ j :: post) =
  if is_TypeError e
  then (match knob_accepts knob whole with
        | None => Return tt
        | Some e' => Raise e'
        end, (at_index <$> pre ++ [j]) ++ [whole])
  else (Raise e, at_index <$> pre ++ [j]).
Proof.
  intros Hpre Hj. induction Hpre as [|i pre Hi _ IH]; simpl.
  - unfold host_call. fold (at_index j) whole. rewrite Hj. simpl.
    destruct (is_TypeError e); [|done]. simpl.
    by destruct (knob_accepts knob whole).
  - change (SetExpression expr (Some i)) with (at_index i). rewrite Hi.
    simpl. rewrite IH. by destruct (is_TypeError e).
Qed.

Lemma setExpression_loop_binds todo :
  Forall (is_bind_of expr) (snd (Package.setExpression_loop knob expr todo)).
Proof.
  induction todo as [|i todo IH]; simpl; [constructor|].
  unfold host_call. destruct (knob_accepts knob (SetExpression expr (Some i)))
    as [e|]; simpl.
  - destruct (is_TypeError e); simpl.
    + destruct (knob_accepts knob (SetExpression expr None)); simpl;
        repeat constructor; by eexists.
    + repeat constructor; by eexists.
  - destruct (Package.setExpression_loop knob expr todo) as [[[]|e] calls];
      simpl in *; constructor; try done; by eexists.
Qed.

Lemma standalone_setExpression_loop todo :
  Standalone.setExpression_loop knob expr todo =
  Package.setExpression_loop knob expr todo.
Proof. induction todo as [|i todo IH]; simpl; [done|]. by rewrite IH. Qed.

End ExpressionFacts.

Lemma seqZ_split (n j : Z) :
  0 <= j < n -> seqZ 0 n = seqZ 0 j ++ j :: seqZ (j + 1) (n - j - 1).
Proof.
  intros Hj. replace n with (j + (n - j)) at 1 by lia.
  rewrite seqZ_app by lia. f_equal. simpl.
  by rewrite (seqZ_cons j) by lia.
Qed.

(** C3. Input whose trimmed form starts with [=] and goes on with some text
    is bound as an expression, in both files: the result is never ["value"]
    and every call made is a [setExpression] of the trimmed remainder.  With
    arity at most 1 (a failed arity query counts as 1) the knob is bound
    once; with arity [n > 1] it is bound at 0..n-1 when every index is
    accepted; the first index that raises [TypeError] is followed by one
    bind of the whole knob and nothing more; any other exception goes on to
    the caller. *)
Theorem expression_input_binds_expression
    (R : PyRuntime) (knob : Knob) (raw : string) :
  let s := PyStr.strip raw in
  let expr := PyStr.strip (PyStr.tail s) in
  let n := default 1 (knob_arraySize knob) in
  let at_index := fun i => SetExpression expr (Some i) in
  let whole := SetExpression expr None in
  let whole_result :=
    match knob_accepts knob whole with
    | None => Return "expression"
    | Some e => Raise e
    end in
  let run := Package._set_knob_value_or_expression knob (Some raw) in
  PyStr.startswith "="%char s = true ->
  expr <> "" ->
  Standalone._set_knob_value_or_expression knob (Some raw) = run
  /\ fst run <> Return "value"
  /\ Forall (is_bind_of expr) (snd run)
  /\ (n <= 1 -> run = (whole_result, [whole]))
  /\ (1 < n ->
      (forall i, 0 <= i < n -> knob_accepts knob (at_index i) = None) ->
      run = (Return "expression", at_index <$> seqZ 0 n))
  /\ (1 < n ->
      forall j e, 0 <= j < n ->
        (forall i, 0 <= i < j -> knob_accepts knob (at_index i) = None) ->
        knob_accepts knob (at_index j) = Some e ->
        run = if is_TypeError e
              then (whole_result, (at_index <$> seqZ 0 (j + 1)) ++ [whole])
              else (Raise e, at_index <$> seqZ 0 (j + 1))).
Proof.
  intros s expr n at_index whole whole_result run Hs Hexpr.
  assert (s <> "") as Hne by (intros E; by rewrite E in Hs).
  assert (run =
          Eff.bind (if negb (n =? 0) && (1 <? n)
                    then Package.setExpression_loop knob expr (seqZ 0 n)
                    else host_call knob whole)
            (fun _ => Eff.ret "expression")) as Hrun.
  { unfold run, Package._set_knob_value_or_expression. fold s.
    rewrite decide_False by done. rewrite Hs. fold expr.
    rewrite decide_False by done. unfold n, default.
    by destruct (knob_arraySize knob). }
  split_and!.
  - rewrite Hrun. unfold Standalone._set_knob_value_or_expression. fold s.
    rewrite decide_False by done. rewrite Hs. fold expr.
    rewrite decide_False by done. rewrite standalone_setExpression_loop.
    unfold n, default, whole. by destruct (knob_arraySize knob).
  - rewrite Hrun. destruct (negb (n =? 0) && (1 <? n)).
    + by destruct (Package.setExpression_loop knob expr (seqZ 0 n)) as [[[]|?] ?].
    + unfold host_call. by destruct (knob_accepts knob whole).
  - rewrite Hrun. destruct (negb (n =? 0) && (1 <? n)).
    + pose proof (setExpression_loop_binds knob expr (seqZ 0 n)) as Hb.
      destruct (Package.setExpression_loop knob expr (seqZ 0 n)) as [[[]|?] ?];
        simpl in *; by rewrite ?app_nil_r.
    + unfold host_call.
      destruct (knob_accepts knob whole); simpl; repeat constructor; by eexists.
  - intros Hn. rewrite Hrun.
    replace (1 <? n) with false by (symmetry; apply Z.ltb_ge; lia).
    rewrite andb_false_r. unfold host_call, whole_result.
    by destruct (knob_accepts knob whole).
  - intros Hn Hall. rewrite Hrun.
    replace (n =? 0) with false by (symmetry; apply Z.eqb_neq; lia).
    replace (1 <? n) with true by (symmetry; apply Z.ltb_lt; lia).
    simpl. rewrite setExpression_loop_all.
    + simpl. by rewrite app_nil_r.
    + apply Forall_forall. intros i Hi%elem_of_seqZ. apply Hall. lia.
  - intros Hn j e Hj Hbefore Hraise. rewrite Hrun.
    replace (n =? 0) with false by (symmetry; apply Z.eqb_neq; lia).
    replace (1 <? n) with true by (symmetry; apply Z.ltb_lt; lia).
    simpl. rewrite (seqZ_split n j) by done.
    assert (Forall (fun i => knob_accepts knob (SetExpression expr (Some i)) = None)
              (seqZ 0 j)) as Hpre.
    { apply Forall_forall. intros i Hi%elem_of_seqZ. apply Hbefore. lia. }
    assert (seqZ 0 (j + 1) = seqZ 0 j ++ [j]) as ->.
    { by rewrite seqZ_app by lia. }
    rewrite (setExpression_loop_stop knob expr _ j _ e Hpre Hraise).
    unfold whole_result. fold whole.
    destruct (is_TypeError e); [|done].
    destruct (knob_accepts knob whole); simpl; by rewrite ?app_nil_r.
Qed.

Lemma expression_input_binds_expression_witness :
  Package._set_knob_value_or_expression (H := Demo.runtime)
    (Demo.size_knob Demo.no_index) (Some " =x+1") =
  (Return "expression",
   [SetExpression "x+1" (Some 0); SetExpression "x+1" None]).
Proof.
  destruct (expression_input_binds_expression Demo.runtime
              (Demo.size_knob Demo.no_index) " =x+1" eq_refl)
    as (_ & _ & _ & _ & _ & Hstop).
  - discriminate.
  - apply (Hstop ltac:(reflexivity) 0 (Exn TypeError "index not supported")).
    + split; [reflexivity|reflexivity].
    + intros i [Hlo Hhi]. exfalso. apply Hlo. apply Z.compare_gt_iff, Hhi.
    + reflexivity.
Defined.

(** ** The value branch: coercion and the label special case *)

Section ValueFacts.
Import PyStr.
Context (R : PyRuntime).

Lemma index_first p opts :
  p ∈ opts ->
  exists i : nat,
    index p opts = Some (Z.of_nat i) /\ opts !! i = Some p
    /\ forall j : nat, (j < i)%nat -> opts !! j <> Some p.
Proof.
  induction opts as [|o opts IH]; [by intros ?%elem_of_nil|].
  intros Hin. simpl. destruct (decide (o = p)) as [->|Hne].
  - exists O. split_and!; [done..|]. intros j Hj. lia.
  - apply elem_of_cons in Hin as [->|Hin]; [done|].
    destruct (IH Hin) as (i & Hi & Hat & Hbefore). exists (S i).
    rewrite Hi. split_and!; [simpl; f_equal; lia|done|].
    intros [|j] Hj; simpl; [congruence|]. apply Hbefore. lia.
Qed.

Lemma lower_match_first low k opts (i : nat) o :
  opts !! i = Some o -> lower o = low ->
  (forall (j : nat) o', (j < i)%nat -> opts !! j = Some o' -> lower o' <> low) ->
  Package.lower_match low k opts = Some (k + Z.of_nat i).
Proof.
  revert k i. induction opts as [|o0 opts IH]; intros k i Hat Hlow Hbefore;
    [done|].
  simpl. destruct i as [|i]; simpl in Hat.
  - injection Hat as ->. rewrite decide_True by done. f_equal. lia.
  - rewrite decide_False by (apply (Hbefore O); [lia|done]).
    rewrite (IH (k + 1) i Hat Hlow).
    + f_equal. lia.
    + intros j o' Hj Hj'. apply (Hbefore (S j)); [lia|done].
Qed.

Lemma lower_match_none low k opts :
  Forall (fun o => lower o <> low) opts ->
  Package.lower_match low k opts = None.
Proof.
  intros Hall. revert k. induction Hall as [|o opts Ho _ IH]; intros k;
    [done|].
  simpl. by rewrite decide_False.
Qed.

Lemma lower_differs_not_elem p opts :
  Forall (fun o => lower o <> lower p) opts -> p ∉ opts.
Proof. intros Hall Hin. by apply (proj1 (Forall_forall _ _) Hall p Hin). Qed.

Lemma coerce_String_Knob knob parsed :
  is_String_Knob knob = true ->
  Package._coerce_for_knob knob parsed =
  PStr match list_items parsed with
       | Some items => join ", " (py_str <$> items)
       | None => py_str parsed
       end.
Proof.
  intros Hs. unfold Package._coerce_for_knob. rewrite Hs.
  destruct parsed as [| | |l|l|]; simpl; try done; do 2 f_equal.
  - rewrite <- list_fmap_compose. apply list_fmap_ext. by intros ? [].
  - rewrite <- list_fmap_compose. by rewrite <- (list_fmap_id l) at 1.
Qed.

(** The value branch with the parser replaced by the grammar. *)
Lemma package_value_branch knob raw :
  strip raw <> "" -> startswith "="%char (strip raw) = false ->
  Package._set_knob_value_or_expression knob (Some raw) =
  let parsed :=
    Package.label_text knob (strip raw)
      (Package._coerce_for_knob knob (Spec.literal (strip raw))) in
  Eff.bind
    match list_items parsed with
    | Some items => Package.setValue_loop knob parsed 0 items
    | None => host_call knob (SetValue parsed None)
    end
    (fun _ => Eff.ret "value").
Proof.
  intros Hne Hs. unfold Package._set_knob_value_or_expression.
  rewrite decide_False by done. rewrite Hs.
  rewrite package_parse_stripped by done. simpl.
  by destruct (list_items _), (_ : Eff call unit) as [[] ?].
Qed.

Lemma assign_text knob raw text :
  strip raw <> "" -> startswith "="%char (strip raw) = false ->
  Package.label_text knob (strip raw)
    (Package._coerce_for_knob knob (Spec.literal (strip raw))) = PStr text ->
  Package._set_knob_value_or_expression knob (Some raw) =
  (match knob_accepts knob (SetValue (PStr text) None) with
   | None => Return "value"
   | Some e => Raise e
   end, [SetValue (PStr text) None]).
Proof.
  intros Hne Hs Htext. rewrite package_value_branch by done. simpl.
  rewrite Htext. simpl. unfold host_call.
  by destruct (knob_accepts knob _).
Qed.

End ValueFacts.

(** C7. In the package version the parsed value is coerced by the kind of
    the knob before it is assigned.  A string knob gets the string form:
    [str] of a scalar, the items of a list joined by a comma and a space; so
    ["10"] reaches [setValue] as the text ["10"].  An enumeration knob that is
    no string knob turns a text equal to an option into the first index of
    that option, else into the first index whose option equals it after
    lowering both, else leaves the text as it is. *)
Theorem coercion_by_knob_kind (R : PyRuntime) (knob : Knob) :
  (is_String_Knob knob = true ->
   (forall parsed,
      Package._coerce_for_knob knob parsed =
      PStr match list_items parsed with
           | Some items => PyStr.join ", " (py_str <$> items)
           | None => py_str parsed
           end)
   /\ (forall raw,
         knob_name knob <> "label" ->
         PyStr.strip raw <> "" ->
         PyStr.startswith "="%char (PyStr.strip raw) = false ->
         exists text,
           Package._coerce_for_knob knob (Spec.literal (PyStr.strip raw))
             = PStr text
           /\ Package._set_knob_value_or_expression knob (Some raw) =
              (match knob_accepts knob (SetValue (PStr text) None) with
               | None => Return "value"
               | Some e => Raise e
               end, [SetValue (PStr text) None]))
   /\ (knob_name knob <> "label" ->
       snd (Package._set_knob_value_or_expression knob (Some "10")) =
       [SetValue (PStr "10") None]))
  /\ (is_String_Knob knob = false ->
      is_Enumeration_Knob knob = true ->
      forall opts p,
        knob_values knob = Some opts ->
        let coerced := Package._coerce_for_knob knob (PStr p) in
        (p ∈ opts ->
         exists i : nat,
           coerced = PInt (Z.of_nat i) /\ opts !! i = Some p
           /\ forall j : nat, (j < i)%nat -> opts !! j <> Some p)
        /\ (p ∉ opts ->
            forall (i : nat) o,
              opts !! i = Some o ->
              PyStr.lower o = PyStr.lower p ->
              (forall (j : nat) o', (j < i)%nat -> opts !! j = Some o' ->
                 PyStr.lower o' <> PyStr.lower p) ->
              coerced = PInt (Z.of_nat i))
        /\ (Forall (fun o => PyStr.lower o <> PyStr.lower p) opts ->
            coerced = PStr p)).
Proof.
  split.
  - intros Hs. split_and!.
    + intros parsed. by apply coerce_String_Knob.
    + intros raw Hname Hne Hraw. eexists. split.
      * by apply coerce_String_Knob.
      * apply assign_text; [done..|].
        unfold Package.label_text. rewrite bool_decide_eq_false_2 by done.
        by apply coerce_String_Knob.
    + intros Hname.
      rewrite (assign_text R knob "10" "10"); [done..|].
      unfold Package.label_text. rewrite bool_decide_eq_false_2 by done.
      by rewrite coerce_String_Knob.
  - intros Hs He opts p Hopts. unfold Package._coerce_for_knob.
    rewrite Hs, He, Hopts. split_and!.
    + intros Hin. unfold PyStr.mem. rewrite bool_decide_eq_true_2 by done.
      destruct (index_first p opts Hin) as (i & Hi & Hat & Hbefore).
      exists i. by rewrite Hi.
    + intros Hin i o Hat Hlow Hbefore. unfold PyStr.mem.
      rewrite bool_decide_eq_false_2 by done.
      by rewrite (lower_match_first _ 0 opts i o Hat Hlow Hbefore).
    + intros Hall. unfold PyStr.mem.
      rewrite bool_decide_eq_false_2 by by apply lower_differs_not_elem.
      by rewrite lower_match_none.
Qed.

Lemma coercion_by_knob_kind_witness :
  snd (Package._set_knob_value_or_expression (H := Demo.runtime)
         Demo.frame_knob (Some "10")) = [SetValue (PStr "10") None]
  /\ Package._coerce_for_knob (H := Demo.runtime) Demo.filter_knob
       (PStr "Bilinear") = PInt 1.
Proof.
  destruct (coercion_by_knob_kind Demo.runtime Demo.frame_knob)
    as [Hstring _].
  destruct (coercion_by_knob_kind Demo.runtime Demo.filter_knob)
    as [_ Henum].
  split.
  - apply (Hstring eq_refl). discriminate.
  - destruct (Henum eq_refl eq_refl ["nearest"; "bilinear"; "cubic"]
                "Bilinear" eq_refl) as (_ & Hcaseless & _).
    apply (Hcaseless ltac:(compute_done) 1%nat "bilinear" eq_refl eq_refl).
    intros [|j] o' Hj Ho'; [|lia].
    injection Ho' as <-. discriminate.
Defined.

(** C8, package version. For input that is no expression, on a knob named
    [label]: the new text is [str] of the parsed and coerced input; when the
    knob holds text that is not blank, the knob is assigned that text
    stripped on the right, a newline, and the new text; when it holds blank
    text, or a false value of another type, it is assigned the new text.
    Holding ["Pass1"], input ["Pass2"] assigns ["Pass1\nPass2"].  The
    standalone script has no such case. *)
Theorem label_input_is_appended (R : PyRuntime) (knob : Knob) (raw : string) :
  let s := PyStr.strip raw in
  let new_text := py_str (Package._coerce_for_knob knob (Spec.literal s)) in
  let assigned := fun text =>
    (match knob_accepts knob (SetValue (PStr text) None) with
     | None => Return "value"
     | Some e => Raise e
     end, [SetValue (PStr text) None]) in
  let run := Package._set_knob_value_or_expression knob (Some raw) in
  knob_name knob = "label" ->
  s <> "" ->
  PyStr.startswith "="%char s = false ->
  (forall existing,
     knob_value knob = Some (VText existing) ->
     PyStr.strip existing <> "" ->
     run = assigned (PyStr.rstrip existing +:+ nl +:+ new_text))
  /\ (forall existing,
        knob_value knob = Some (VText existing) ->
        PyStr.strip existing = "" ->
        run = assigned new_text)
  /\ (knob_value knob = Some (VOther false) -> run = assigned new_text)
  /\ (raw = "Pass2" ->
      is_Enumeration_Knob knob = false ->
      knob_value knob = Some (VText "Pass1") ->
      run = assigned ("Pass1" +:+ nl +:+ "Pass2")).
Proof.
  intros s new_text assigned run Hname Hne Hs.
  assert (forall text,
            Package.label_text knob s
              (Package._coerce_for_knob knob (Spec.literal s)) = PStr text ->
            run = assigned text) as Hassign.
  { intros text Htext. by apply assign_text. }
  assert (forall existing,
            knob_value knob = Some (VText existing) ->
            PyStr.strip existing <> "" ->
            run = assigned (PyStr.rstrip existing +:+ nl +:+ new_text))
    as Happend.
  { intros existing Hval Hex. apply Hassign. unfold Package.label_text.
    rewrite Hname, Hs, Hval. simpl.
    rewrite !bool_decide_eq_true_2; [done|done|].
    by apply strip_nonempty_inv. }
  split_and!.
  - done.
  - intros existing Hval Hex. apply Hassign. unfold Package.label_text.
    rewrite Hname, Hs, Hval. simpl.
    rewrite (bool_decide_eq_false_2 (PyStr.strip existing <> "")) by tauto.
    by rewrite andb_false_r.
  - intros Hval. apply Hassign. unfold Package.label_text.
    by rewrite Hname, Hs, Hval.
  - intros Hraw Henum Hval.
    rewrite (Happend "Pass1" Hval) by done.
    unfold new_text, s. rewrite Hraw.
    unfold Package._coerce_for_knob. rewrite Henum.
    by destruct (is_String_Knob knob).
Qed.

Lemma label_input_is_appended_witness :
  Package._set_knob_value_or_expression (H := Demo.runtime) Demo.label_knob
    (Some "Pass2") =
  (Return "value", [SetValue (PStr ("Pass1" +:+ nl +:+ "Pass2")) None]).
Proof.
  destruct (label_input_is_appended Demo.runtime Demo.label_knob "Pass2"
              eq_refl) as (_ & _ & _ & Hpass).
  - discriminate.
  - reflexivity.
  - apply Hpass; reflexivity.
Defined.

(** C8, standalone script. It overwrites the label: holding ["Pass1"], input
    ["Pass2"] assigns ["Pass2"], not ["Pass1\nPass2"]. *)
Lemma standalone_label_overwritten :
  Standalone._set_knob_value_or_expression Demo.label_knob (Some "Pass2") =
    (Return "value", [SetValue (PStr "Pass2") None])
  /\ Standalone._set_knob_value_or_expression Demo.label_knob (Some "Pass2") <>
       (Return "value", [SetValue (PStr ("Pass1" +:+ nl +:+ "Pass2")) None]).
Proof. split; [reflexivity|discriminate]. Qed.

(** ** The batch driver *)

Section LoopFacts.
Variable set_knob : Knob -> option string -> Eff call string.
Variable knob_name : string.
Variable value_str : option string.

Let attempt := attempt_of set_knob knob_name value_str.
Let loop := target_loop set_knob knob_name value_str.

(** One target that does not escape moves the loop variables as its
    attempt says. *)
Lemma target_loop_cons node rest changed errors mode_used :
  is_escaped (attempt node) = false ->
  loop (node :: rest) (changed, errors, mode_used) =
  let '(r, log) :=
    loop rest
      ((if is_applied (attempt node) then S changed else changed),
       errors ++ option_list (error_entry attempt node),
       mode_after attempt mode_used [node]) in
  (r, target_log attempt node ++ log).
Proof.
  unfold loop, error_entry, target_log, attempt, attempt_of. simpl.
  destruct (node_knob node knob_name) as [k|]; simpl.
  - destruct (set_knob k value_str) as [[mode|e] calls]; simpl.
    + intros _. rewrite !app_nil_r. by destruct (target_loop _ _ _ rest _).
    + destruct (is_Exception e); [|done]. simpl.
      intros _. rewrite !app_nil_r. by destruct (target_loop _ _ _ rest _).
  - intros _. rewrite !app_nil_r. by destruct (target_loop _ _ _ rest _).
Qed.

Lemma target_loop_no_escape targets changed errors mode_used :
  Forall (fun node => is_escaped (attempt node) = false) targets ->
  loop targets (changed, errors, mode_used) =
  (Return
     ((changed + length (filter (fun n => is_applied (attempt n)) targets))%nat,
      errors ++ omap (error_entry attempt) targets,
      mode_after attempt mode_used targets),
   targets ≫= target_log attempt).
Proof.
  intros Hall. revert changed errors mode_used.
  induction Hall as [|node rest Hnode _ IH]; intros changed errors mode_used.
  - simpl. by rewrite Nat.add_0_r, app_nil_r.
  - rewrite target_loop_cons by done. rewrite IH. simpl.
    rewrite filter_cons. unfold error_entry.
    destruct (attempt node); simpl;
      by rewrite ?app_nil_r, <- ?app_assoc, ?Nat.add_succ_r.
Qed.

(** Whatever the targets do, the loop logs knob calls only. *)
Lemma target_loop_log targets vars :
  Forall (fun ev => is_knob_call ev = true) (snd (loop targets vars)).
Proof.
  revert vars. induction targets as [|node rest IH]; intros [[changed errors] mode];
    simpl; [constructor|].
  destruct (node_knob node knob_name) as [k|]; [|apply IH].
  destruct (set_knob k value_str) as [[m|e] calls]; simpl.
  - rewrite app_nil_r. pose proof (IH (S changed, errors, Some m)) as IH'.
    destruct (loop rest (S changed, errors, Some m)) as [r log]. simpl in *.
    apply Forall_app. split; [|done]. by apply Forall_fmap, Forall_true.
  - destruct (is_Exception e); simpl.
    + rewrite app_nil_r.
      pose proof (IH (changed,
                      errors ++ [node_name node +:+ ": " +:+ exn_msg e],
                      mode)) as IH'.
      destruct (loop rest _) as [r log]. simpl in *.
      apply Forall_app. split; [|done]. by apply Forall_fmap, Forall_true.
    + by apply Forall_fmap, Forall_true.
Qed.

Lemma apply_loop_shape targets :
  apply_loop set_knob knob_name value_str targets =
  (fst (loop targets (O, [], None)),
   EUndoBegin "Mass Knob Modifier"
     :: snd (loop targets (O, [], None)) ++ [EUndoEnd]).
Proof.
  unfold apply_loop, loop. simpl.
  by destruct (target_loop _ _ _ targets _) as [[] ?].
Qed.

Lemma open_transactions_calls log :
  Forall (fun ev => is_knob_call ev = true) log ->
  forall tail, open_transactions (log ++ tail) = open_transactions tail.
Proof.
  induction 1 as [|ev log Hev _ IH]; intros tail; [done|].
  destruct ev; try done. simpl. apply IH.
Qed.

Lemma apply_loop_balanced targets :
  open_transactions (snd (apply_loop set_knob knob_name value_str targets)) = 0.
Proof.
  rewrite apply_loop_shape. simpl.
  rewrite open_transactions_calls by apply target_loop_log. simpl. lia.
Qed.

End LoopFacts.

Lemma open_transactions_message log text :
  open_transactions (log ++ [EMessage text]) = open_transactions log.
Proof. induction log as [|[] log IH]; simpl; by rewrite ?IH. Qed.

Lemma open_transactions_bind {A B} (m : Eff event A) (f : A -> Eff event B) :
  open_transactions (snd m) = 0 ->
  (forall a, exists text, snd (f a) = [EMessage text]) ->
  open_transactions (snd (Eff.bind m f)) = 0.
Proof.
  intros Hm Hf. destruct m as [[a|e] log]; simpl in *; [|done].
  destruct (Hf a) as [text Ha]. destruct (f a) as [r log']. simpl in *.
  subst log'. by rewrite open_transactions_message.
Qed.

Lemma package_driver_balanced (R : PyRuntime) ses :
  open_transactions (snd (Package.mass_knob_modifier ses)) = 0.
Proof.
  unfold Package.mass_knob_modifier.
  destruct (negb (showModalDialog ses)); [done|].
  destruct (is_blank (valueString ses)); [done|].
  destruct (Package.targets_for_mode ses) as [msg|[targets target_class]];
    [done|].
  destruct (Package._common_knobs_for_nodes targets) as [|item items]; [done|].
  apply open_transactions_bind; [apply apply_loop_balanced|].
  intros vars. by eexists.
Qed.

Lemma standalone_driver_balanced (R : PyRuntime) ses :
  open_transactions (snd (Standalone.mass_knob_modifier ses)) = 0.
Proof.
  unfold Standalone.mass_knob_modifier.
  destruct (selectedNodes ses) as [|first rest]; [done|].
  destruct (Standalone.visible_common_of first rest) as [msg|shown]; [done|].
  destruct (negb (showModalDialog ses)); [done|].
  destruct (is_blank (knobName ses)); [done|].
  destruct (is_blank (valueString ses)); [done|].
  apply open_transactions_bind; [apply apply_loop_balanced|].
  intros vars. by eexists.
Qed.

(** C4. In the batch loop of the package driver, when no target raises an
    error that is no [Exception]: a target without the knob makes no call,
    adds no entry and is not counted; a target whose apply raises adds the
    entry ["<name>: <message>"] and the loop goes on, so every target with
    the knob is attempted, in order, inside the transaction; the count is the
    number of targets whose apply returned, and count plus entries is the
    number of targets with the knob. *)
Theorem batch_loop_skips_records_counts
    (R : PyRuntime) (knob_name : string) (value_str : option string)
    (targets : list Node) :
  let set_knob := Package._set_knob_value_or_expression in
  let attempt := attempt_of set_knob knob_name value_str in
  Forall (fun node => is_escaped (attempt node) = false) targets ->
  apply_loop set_knob knob_name value_str targets =
    (Return (length (filter (fun n => is_applied (attempt n)) targets),
             omap (error_entry attempt) targets,
             mode_after attempt None targets),
     EUndoBegin "Mass Knob Modifier"
       :: (targets ≫= target_log attempt) ++ [EUndoEnd])
  /\ (forall node,
        node_knob node knob_name = None ->
        is_applied (attempt node) = false
        /\ error_entry attempt node = None
        /\ target_log attempt node = [])
  /\ (forall node k e,
        node_knob node knob_name = Some k ->
        fst (set_knob k value_str) = Raise e ->
        is_Exception e = true ->
        is_applied (attempt node) = false
        /\ error_entry attempt node
           = Some (node_name node +:+ ": " +:+ exn_msg e)
        /\ target_log attempt node
           = EKnobCall (node_name node) <$> snd (set_knob k value_str))
  /\ (forall node k mode,
        node_knob node knob_name = Some k ->
        fst (set_knob k value_str) = Return mode ->
        is_applied (attempt node) = true
        /\ error_entry attempt node = None
        /\ target_log attempt node
           = EKnobCall (node_name node) <$> snd (set_knob k value_str))
  /\ (length (filter (fun n => is_applied (attempt n)) targets)
      + length (omap (error_entry attempt) targets)
      = length (filter (fun n => is_Some (node_knob n knob_name)) targets))%nat.
Proof.
  intros set_knob attempt Hall. split_and!.
  - rewrite apply_loop_shape.
    by rewrite (target_loop_no_escape set_knob knob_name value_str targets
                  O [] None Hall).
  - intros node Hk. unfold error_entry, target_log, attempt, attempt_of.
    by rewrite Hk.
  - intros node k e Hk Hraise He.
    unfold error_entry, target_log, attempt, attempt_of. rewrite Hk.
    destruct (set_knob k value_str) as [r calls]. simpl in Hraise. subst r.
    by rewrite He.
  - intros node k mode Hk Hret.
    unfold error_entry, target_log, attempt, attempt_of. rewrite Hk.
    destruct (set_knob k value_str) as [r calls]. simpl in Hret. by subst r.
  - induction Hall as [|node rest Hnode _ IH]; [done|].
    rewrite !filter_cons. simpl. unfold error_entry at 1.
    assert (attempt node = attempt_of set_knob knob_name value_str node) as Ha
      by done.
    unfold attempt_of in Ha.
    destruct (node_knob node knob_name) as [k|]; rewrite Ha in Hnode |- *;
      simpl; [|done].
    destruct (set_knob k value_str) as [[mode|e] calls]; simpl in *.
    + by rewrite <- IH.
    + destruct (is_Exception e); [|done]. simpl.
      rewrite Nat.add_succ_r. f_equal. exact IH.
Qed.

Lemma batch_loop_skips_records_counts_witness :
  fst (apply_loop (Package._set_knob_value_or_expression (H := Demo.runtime))
         "size" (Some "1,2,3") [Demo.T1; Demo.T2; Demo.T3; Demo.T4]) =
  Return (2%nat, ["T3: knob is locked"], Some "value").
Proof.
  destruct (batch_loop_skips_records_counts Demo.runtime "size"
              (Some "1,2,3") [Demo.T1; Demo.T2; Demo.T3; Demo.T4])
    as [Hrun _].
  - repeat constructor.
  - rewrite Hrun. reflexivity.
Defined.

(** C9. On every run of the batch loop the log reads: the begin of the undo
    transaction, knob calls only, the end of the transaction; this holds when
    the loop returns and when an error that is no [Exception] leaves it, as in
    the run over T1, T5, T4 where T5 is interrupted and T4 is never reached.
    Both drivers leave no transaction open, whatever the session. *)
Theorem undo_transaction_always_closed (R : PyRuntime) :
  (forall set_knob knob_name value_str targets,
     exists body,
       snd (apply_loop set_knob knob_name value_str targets)
       = EUndoBegin "Mass Knob Modifier" :: body ++ [EUndoEnd]
       /\ Forall (fun ev => is_knob_call ev = true) body)
  /\ (forall ses, open_transactions (snd (Package.mass_knob_modifier ses)) = 0)
  /\ (forall ses,
        open_transactions (snd (Standalone.mass_knob_modifier ses)) = 0)
  /\ apply_loop Package._set_knob_value_or_expression "size" (Some "7")
       [Demo.T1; Demo.T5; Demo.T4] =
     (Raise (Exn NonException "KeyboardInterrupt"),
      [EUndoBegin "Mass Knob Modifier";
       EKnobCall "T1" (SetValue (PInt 7) None);
       EKnobCall "T5" (SetValue (PInt 7) None);
       EUndoEnd])
  /\ apply_loop Standalone._set_knob_value_or_expression "size" (Some "7")
       [Demo.T1; Demo.T5; Demo.T4] =
     (Raise (Exn NonException "KeyboardInterrupt"),
      [EUndoBegin "Mass Knob Modifier";
       EKnobCall "T1" (SetValue (PInt 7) None);
       EKnobCall "T5" (SetValue (PInt 7) None);
       EUndoEnd]).
Proof.
  split_and!.
  - intros set_knob knob_name value_str targets.
    rewrite apply_loop_shape. eexists. split; [done|].
    apply target_loop_log.
  - apply package_driver_balanced.
  - apply standalone_driver_balanced.
  - reflexivity.
  - reflexivity.
Qed.

(** C2, as the code has it. A value that is blank after trimming ends the
    package driver with the message "Value cannot be empty.", before the
    transaction and before any call on a knob.  An [=] followed by blank text
    makes [_set_knob_value_or_expression] raise
    [ValueError("Empty expression.")] before any call on the knob; the driver
    then enters the loop, records that error once for every target that has
    the knob, counts no target and mutates none. *)
Theorem blank_input_makes_no_call (R : PyRuntime) :
  (forall ses,
     showModalDialog ses = true ->
     is_blank (valueString ses) = true ->
     Package.mass_knob_modifier ses
     = (Return tt, [EMessage "Value cannot be empty."]))
  /\ (forall knob value_str,
        is_blank value_str = true ->
        Package._set_knob_value_or_expression knob value_str
        = (Raise (Exn ValueError "Empty value."), []))
  /\ (forall knob raw,
        PyStr.startswith "="%char (PyStr.strip raw) = true ->
        PyStr.strip (PyStr.tail (PyStr.strip raw)) = "" ->
        Package._set_knob_value_or_expression knob (Some raw)
        = (Raise (Exn ValueError "Empty expression."), []))
  /\ (forall knob_name raw targets,
        PyStr.startswith "="%char (PyStr.strip raw) = true ->
        PyStr.strip (PyStr.tail (PyStr.strip raw)) = "" ->
        apply_loop Package._set_knob_value_or_expression knob_name (Some raw)
          targets
        = (Return (O,
                   (fun n => node_name n +:+ ": Empty expression.")
                     <$> filter (fun n => is_Some (node_knob n knob_name))
                           targets,
                   None),
           [EUndoBegin "Mass Knob Modifier"; EUndoEnd])).
Proof.
  assert (forall knob raw,
            PyStr.startswith "="%char (PyStr.strip raw) = true ->
            PyStr.strip (PyStr.tail (PyStr.strip raw)) = "" ->
            Package._set_knob_value_or_expression knob (Some raw)
            = (Raise (Exn ValueError "Empty expression."), [])) as Hexpr.
  { intros knob raw Hs Hblank. unfold Package._set_knob_value_or_expression.
    rewrite decide_False by (intros E; by rewrite E in Hs).
    rewrite Hs. by rewrite decide_True. }
  split_and!.
  - intros ses Hshow Hblank. unfold Package.mass_knob_modifier.
    by rewrite Hshow, Hblank.
  - intros knob [raw|] Hblank; [|done].
    unfold Package._set_knob_value_or_expression.
    apply bool_decide_eq_true_1 in Hblank. by rewrite decide_True.
  - done.
  - intros knob_name raw targets Hs Hblank.
    set (attempt := attempt_of Package._set_knob_value_or_expression
                      knob_name (Some raw)).
    assert (forall node,
              attempt node =
              match node_knob node knob_name with
              | None => Skipped
              | Some _ => Failed (Exn ValueError "Empty expression.") []
              end) as Hattempt.
    { intros node. unfold attempt, attempt_of.
      destruct (node_knob node knob_name) as [k|]; [|done].
      by rewrite Hexpr. }
    assert (length (filter (fun n => is_applied (attempt n)) targets) = O)
      as Hcount.
    { induction targets as [|node rest IH]; [done|].
      rewrite filter_cons, Hattempt.
      by destruct (node_knob node knob_name). }
    assert (omap (error_entry attempt) targets
            = (fun n => node_name n +:+ ": Empty expression.")
                <$> filter (fun n => is_Some (node_knob n knob_name)) targets)
      as Herrors.
    { clear Hcount. induction targets as [|node rest IH]; [done|].
      rewrite filter_cons. simpl. unfold error_entry at 1.
      rewrite Hattempt.
      destruct (node_knob node knob_name); simpl; [f_equal|]; exact IH. }
    assert (mode_after attempt None targets = None) as Hmode.
    { clear Hcount Herrors. induction targets as [|node rest IH]; [done|].
      unfold mode_after in *. simpl. rewrite Hattempt.
      by destruct (node_knob node knob_name). }
    assert (targets ≫= target_log attempt = []) as Hlog.
    { clear Hcount Herrors Hmode. induction targets as [|node rest IH]; [done|].
      simpl. unfold target_log at 1. rewrite Hattempt.
      by destruct (node_knob node knob_name). }
    rewrite apply_loop_shape.
    rewrite (target_loop_no_escape _ knob_name (Some raw) targets O [] None).
    + fold attempt. simpl. by rewrite Hcount, Herrors, Hmode, Hlog.
    + apply Forall_forall. intros node _. fold attempt. rewrite Hattempt.
      by destruct (node_knob node knob_name).
Qed.

Lemma blank_input_makes_no_call_witness :
  Package.mass_knob_modifier (H := Demo.runtime)
    (Demo.session [Demo.T1] "   ")
  = (Return tt, [EMessage "Value cannot be empty."]).
Proof.
  destruct (blank_input_makes_no_call Demo.runtime) as [Hvalue _].
  apply Hvalue; reflexivity.
Defined.

(** C2, a run with an empty expression. An [=] alone does not end the run
    with an empty-input error: the driver
    opens the transaction, records one error entry for the target and shows
    the report. *)
Lemma blank_expression_is_recorded_per_target :
  Package.mass_knob_modifier (H := Demo.runtime) (Demo.session [Demo.T1] "=")
  = (Return tt,
     [EUndoBegin "Mass Knob Modifier"; EUndoEnd;
      EMessage ("Changed 'size' to  on 0 nodes." +:+ nl +:+ "Errors: 1"
                +:+ nl +:+ "T1: Empty expression.")])
  /\ fst (apply_loop
            (Package._set_knob_value_or_expression (H := Demo.runtime))
            "size" (Some "=") [Demo.T1])
     = Return (O, ["T1: Empty expression."], None).
Proof. split; by vm_compute. Qed.

(** * Further properties of the code *)

(** ** The parser: white space, fields and kinds *)

Section ParserExtras.
Import PyStr PyNum.

Lemma split_length c s : length (split c s) = S (count_char c s).
Proof.
  induction s as [|d s IH]; [done|]. simpl.
  destruct (decide (d = c)); simpl; [by rewrite IH|].
  destruct (split c s); simpl in *; [done|]. by rewrite <- IH.
Qed.

Lemma contains_count c s : contains c s = true <-> count_char c s <> O.
Proof.
  induction s as [|d s IH]; simpl; [done|].
  destruct (decide (d = c)); [done|]. apply IH.
Qed.

Lemma strip_strip_parts v :
  Forall (fun p => strip p = p) (map strip (split ","%char v)).
Proof. apply Forall_fmap, Forall_true. intros p. apply strip_idemp. Qed.

Lemma literal_list_length v :
  match Spec.literal v with
  | PNumList l => length l = S (count_char ","%char v) /\ contains ","%char v = true
  | PStrList l =>
      l = map strip (split ","%char v) /\ contains ","%char v = true
  | _ => True
  end.
Proof.
  unfold Spec.literal.
  destruct (mem _ _); [done|]. destruct (mem _ _); [done|].
  destruct (Spec.numeric v) as [[]|]; [done..|].
  destruct (contains ","%char v) eqn:Hc; [|done].
  destruct (mapM Spec.numeric _) as [numbers|] eqn:Hm; [|done].
  split; [|done].
  apply mapM_Some_1, Forall2_length in Hm.
  by rewrite <- Hm, length_map, split_length.
Qed.

Lemma set_knob_strip (R : PyRuntime) knob s :
  Package._set_knob_value_or_expression knob (Some (strip s)) =
  Package._set_knob_value_or_expression knob (Some s).
Proof.
  unfold Package._set_knob_value_or_expression. by rewrite strip_idemp.
Qed.

Lemma standalone_set_knob_strip knob s :
  Standalone._set_knob_value_or_expression knob (Some (strip s)) =
  Standalone._set_knob_value_or_expression knob (Some s).
Proof.
  unfold Standalone._set_knob_value_or_expression. by rewrite strip_idemp.
Qed.

End ParserExtras.

(** X1. White space around the input never matters: the trimmed text gives
    the same parse, and the same calls and result on every knob, in both
    files. *)
Theorem surrounding_space_is_ignored (R : PyRuntime) (knob : Knob) (s : string) :
  Package._parse_value (Some (PyStr.strip s)) = Package._parse_value (Some s)
  /\ Standalone._parse_value (Some (PyStr.strip s))
     = Standalone._parse_value (Some s)
  /\ Package._set_knob_value_or_expression knob (Some (PyStr.strip s))
     = Package._set_knob_value_or_expression knob (Some s)
  /\ Standalone._set_knob_value_or_expression knob (Some (PyStr.strip s))
     = Standalone._set_knob_value_or_expression knob (Some s).
Proof.
  split_and!.
  - by rewrite !package_parse_literal, strip_idemp.
  - by rewrite !standalone_parse_package, !package_parse_literal, strip_idemp.
  - apply set_knob_strip.
  - apply standalone_set_knob_strip.
Qed.

(** X2. A list result has one item for every comma-separated field of the
    trimmed text, empty fields included, so at least two; a text list is
    the list of the trimmed fields, each free of surrounding white space. *)
Theorem list_result_has_one_item_per_field (s : string) (v : PyVal) :
  Package._parse_value (Some s) = Return v ->
  let fields := S (count_char ","%char (PyStr.strip s)) in
  match v with
  | PNumList l => length l = fields /\ (2 <= length l)%nat
  | PStrList l =>
      length l = fields /\ (2 <= length l)%nat
      /\ l = map PyStr.strip (PyStr.split ","%char (PyStr.strip s))
      /\ Forall (fun p => PyStr.strip p = p) l
  | _ => True
  end.
Proof.
  rewrite package_parse_literal. case_decide; [done|]. intros [= <-].
  pose proof (literal_list_length (PyStr.strip s)) as Hlen.
  destruct (Spec.literal (PyStr.strip s)) as [| | |l|l|]; try done; simpl.
  - destruct Hlen as [Hlen Hc%contains_count]. lia.
  - destruct Hlen as [-> Hc%contains_count].
    rewrite length_map, split_length. split_and!; [done|lia|done|].
    apply strip_strip_parts.
Qed.

Lemma list_result_has_one_item_per_field_witness :
  length ["1"; ""; "x"] = 3%nat /\ (2 <= length ["1"; ""; "x"])%nat
  /\ ["1"; ""; "x"] = map PyStr.strip (PyStr.split ","%char (PyStr.strip " 1, ,x "))
  /\ Forall (fun p => PyStr.strip p = p) ["1"; ""; "x"].
Proof.
  exact (list_result_has_one_item_per_field " 1, ,x " (PStrList ["1"; ""; "x"])
           eq_refl).
Defined.

(** X3. The kind of the result is decided by the trimmed text: a boolean
    exactly for the six words in any case; a text result is the trimmed
    input itself, not empty and without a comma; a list only for text with a
    comma. *)
Theorem result_kind_follows_text (s : string) :
  let v := PyStr.strip s in
  (forall b,
     Package._parse_value (Some s) = Return (PBool b) <->
     v <> "" /\ PyStr.mem (PyStr.lower v)
                  (if b then ["true"; "yes"; "on"] else ["false"; "no"; "off"])
                = true)
  /\ (forall t,
        Package._parse_value (Some s) = Return (PStr t) ->
        t = v /\ t <> "" /\ PyStr.contains ","%char t = false)
  /\ (forall r,
        Package._parse_value (Some s) = Return r ->
        is_Some (list_items r) -> PyStr.contains ","%char v = true).
Proof.
  intros v. rewrite package_parse_literal. fold v.
  pose proof (literal_list_length v) as Hlen.
  unfold Spec.literal in *. split_and!.
  - intros b. case_decide as Hv; [by split; [|intros []]|].
    destruct (PyStr.mem (PyStr.lower v) ["true"; "yes"; "on"]) eqn:Ht.
    + destruct b; split; try done; try (by intros [_ ?]).
      intros [_ Hf]. exfalso. revert Ht Hf. unfold PyStr.mem.
      rewrite !bool_decide_eq_true. intros Ht Hf.
      apply list_elem_of_In in Ht, Hf. simpl in Ht, Hf.
      destruct Ht as [Ht|[Ht|[Ht|[]]]], Hf as [Hf|[Hf|[Hf|[]]]]; congruence.
    + destruct (PyStr.mem (PyStr.lower v) ["false"; "no"; "off"]) eqn:Hf.
      * destruct b; split; intros Hx; try done; destruct Hx; congruence.
      * split; [|by destruct b; intros [_ ?]; congruence].
        intros [= Heq]. exfalso. revert Heq.
        destruct (Spec.numeric v) as [[]|]; [done..|].
        destruct (PyStr.contains ","%char v); [|done].
        by destruct (mapM Spec.numeric _).
  - intros t. case_decide as Hv; [done|]. intros [= Heq]. revert Heq.
    destruct (PyStr.mem _ _); [done|]. destruct (PyStr.mem _ _); [done|].
    destruct (Spec.numeric v) as [[]|]; [done..|].
    destruct (PyStr.contains ","%char v) eqn:Hc.
    + by destruct (mapM Spec.numeric _).
    + by intros [= <-].
  - intros r. case_decide as Hv; [done|]. intros [= <-] [items Hitems].
    revert Hlen Hitems.
    destruct (PyStr.mem _ _); [done|]. destruct (PyStr.mem _ _); [done|].
    destruct (Spec.numeric v) as [[]|]; [done..|].
    destruct (PyStr.contains ","%char v); [done|done].
Qed.

(** ** The per-knob operation: mode, list assignment, errors *)

Section KnobExtras.
Import PyStr.




End KnobExtras.

Section LoopModeFacts.
Variable set_knob : Knob -> option string -> Eff call string.
Variable knob_name : string.
Variable value_str : option string.
Variable mode0 : string.
Hypothesis set_knob_mode :
  forall k mode, fst (set_knob k value_str) = Return mode -> mode = mode0.



End LoopModeFacts.



Section ValueLoopFacts.
Import PyStr.
Variable knob : Knob.
Variable parsed : PyVal.

Lemma indexed_calls_cons k val items :
  indexed_calls k (val :: items)
  = SetValue val (Some k) :: indexed_calls (k + 1) items.
Proof.
  unfold indexed_calls. rewrite imap_cons. f_equal.
  - do 2 f_equal. lia.
  - apply imap_ext. intros i x _. simpl. do 2 f_equal. lia.
Qed.

Lemma standalone_setValue_loop k items :
  Standalone.setValue_loop knob parsed k items
  = Package.setValue_loop knob parsed k items.
Proof.
  revert k. induction items as [|val items IH]; intros k; simpl; [done|].
  by rewrite IH.
Qed.

Lemma setValue_loop_all k items :
  Forall (fun c => knob_accepts knob c = None) (indexed_calls k items) ->
  Package.setValue_loop knob parsed k items = (Return tt, indexed_calls k items).
Proof.
  revert k. induction items as [|val items IH]; intros k; [done|].
  rewrite indexed_calls_cons. intros [Hval Hrest]%Forall_cons.
  simpl. unfold host_call. rewrite Hval. simpl. by rewrite IH.
Qed.

Lemma setValue_loop_stop k items (j : nat) val e :
  items !! j = Some val ->
  Forall (fun c => knob_accepts knob c = None) (indexed_calls k (take j items)) ->
  knob_accepts knob (SetValue val (Some (k + Z.of_nat j))) = Some e ->
  Package.setValue_loop knob parsed k items =
  if is_TypeError e
  then (match knob_accepts knob (SetValue parsed None) with
        | None => Return tt
        | Some e' => Raise e'
        end,
        indexed_calls k (take (S j) items) ++ [SetValue parsed None])
  else (Raise e, indexed_calls k (take (S j) items)).
Proof.
  revert k j. induction items as [|x items IH]; intros k j Hj Hpre Hraise;
    [done|].
  destruct j as [|j]; simpl in Hj.
  - injection Hj as ->. replace (k + Z.of_nat 0) with k in Hraise by lia.
    simpl. unfold host_call. rewrite Hraise. simpl. rewrite take_0.
    rewrite indexed_calls_cons.
    replace (k + Z.of_nat 0) with k by lia.
    destruct (is_TypeError e); [|done]. simpl.
    by destruct (knob_accepts knob (SetValue parsed None)).
  - simpl in Hpre. rewrite indexed_calls_cons in Hpre.
    apply Forall_cons in Hpre as [Hx Hpre].
    change (take (S (S j)) (x :: items)) with (x :: take (S j) items).
    rewrite indexed_calls_cons.
    assert (knob_accepts knob (SetValue val (Some (k + 1 + Z.of_nat j)))
            = Some e) as Hraise'
      by (by replace (k + 1 + Z.of_nat j) with (k + Z.of_nat (S j)) by lia).
    pose proof (IH (k + 1) j Hj Hpre Hraise') as Hrec.
    revert Hrec. generalize (indexed_calls (k + 1) (take (S j) items)).
    intros rest Hrec. simpl. rewrite Hx. simpl. rewrite Hrec.
    by destruct (is_TypeError e).
Qed.

End ValueLoopFacts.

Lemma standalone_value_branch knob raw :
  PyStr.strip raw <> "" -> PyStr.startswith "="%char (PyStr.strip raw) = false ->
  Standalone._set_knob_value_or_expression knob (Some raw) =
  let parsed := Spec.literal (PyStr.strip raw) in
  Eff.bind
    match list_items parsed with
    | Some items => Package.setValue_loop knob parsed 0 items
    | None => host_call knob (SetValue parsed None)
    end
    (fun _ => Eff.ret "value").
Proof.
  intros Hne Hs. unfold Standalone._set_knob_value_or_expression.
  rewrite decide_False by done. rewrite Hs.
  rewrite standalone_parse_package, package_parse_stripped by done. simpl.
  destruct (list_items _); [rewrite standalone_setValue_loop|];
    by destruct (_ : Eff call unit) as [[] ?].
Qed.

Lemma coerce_list_unchanged (R : PyRuntime) knob parsed :
  is_String_Knob knob = false -> is_Some (list_items parsed) ->
  Package._coerce_for_knob knob parsed = parsed.
Proof.
  intros Hs [items Hitems]. unfold Package._coerce_for_knob. rewrite Hs.
  by destruct parsed.
Qed.

Lemma label_text_other_name (R : PyRuntime) knob s parsed :
  knob_name knob <> "label" -> Package.label_text knob s parsed = parsed.
Proof.
  intros Hname. unfold Package.label_text.
  by rewrite bool_decide_eq_false_2.
Qed.

(** X5. A list value is assigned item by item at the indices 0, 1, 2, ...:
    when the host accepts every indexed call these are all the calls; the
    first indexed call that raises [TypeError] is followed by one call with
    the whole list and no index, and nothing more; any other exception stops
    the assignment and goes on to the caller.  The package version does the
    same on a knob that is no string knob and is not named [label]. *)
Theorem list_value_is_assigned_by_index
    (R : PyRuntime) (knob : Knob) (raw : string) (items : list PyVal) :
  let parsed := Spec.literal (PyStr.strip raw) in
  let whole := SetValue parsed None in
  let run := Standalone._set_knob_value_or_expression knob (Some raw) in
  PyStr.strip raw <> "" ->
  PyStr.startswith "="%char (PyStr.strip raw) = false ->
  list_items parsed = Some items ->
  (Forall (fun c => knob_accepts knob c = None) (indexed_calls 0 items) ->
   run = (Return "value", indexed_calls 0 items))
  /\ (forall (j : nat) val e,
        items !! j = Some val ->
        Forall (fun c => knob_accepts knob c = None)
          (indexed_calls 0 (take j items)) ->
        knob_accepts knob (SetValue val (Some (Z.of_nat j))) = Some e ->
        run = if is_TypeError e
              then (whole_value_result knob parsed,
                    indexed_calls 0 (take (S j) items) ++ [whole])
              else (Raise e, indexed_calls 0 (take (S j) items)))
  /\ (is_String_Knob knob = false ->
      knob_name knob <> "label" ->
      Package._set_knob_value_or_expression knob (Some raw) = run).
Proof.
  intros parsed whole run Hne Hs Hitems.
  assert (run = Eff.bind (Package.setValue_loop knob parsed 0 items)
                  (fun _ => Eff.ret "value")) as Hrun.
  { unfold run. rewrite standalone_value_branch by done. simpl.
    fold parsed. by rewrite Hitems. }
  split_and!.
  - intros Hall. rewrite Hrun, setValue_loop_all by done. simpl.
    by rewrite app_nil_r.
  - intros j val e Hj Hpre Hraise. rewrite Hrun.
    rewrite (setValue_loop_stop knob parsed 0 items j val e Hj Hpre Hraise).
    unfold whole_value_result. fold whole.
    destruct (is_TypeError e); [|done].
    destruct (knob_accepts knob whole); simpl; by rewrite ?app_nil_r.
  - intros Hstring Hname. rewrite Hrun, package_value_branch by done. simpl.
    rewrite coerce_list_unchanged by (by rewrite ?Hitems).
    rewrite label_text_other_name by done. fold parsed. by rewrite Hitems.
Qed.

Lemma list_value_is_assigned_by_index_witness :
  Standalone._set_knob_value_or_expression (Demo.size_knob Demo.no_index)
    (Some "1, 2 ,x")
  = (Return "value",
     [SetValue (PStr "1") (Some 0); SetValue (PStrList ["1"; "2"; "x"]) None]).
Proof.
  destruct (list_value_is_assigned_by_index Demo.runtime
              (Demo.size_knob Demo.no_index) "1, 2 ,x"
              [PStr "1"; PStr "2"; PStr "x"])
    as (_ & Hstop & _); [discriminate|reflexivity|reflexivity|].
  apply (Hstop O (PStr "1") (Exn TypeError "index not supported") eq_refl).
  - constructor.
  - reflexivity.
Defined.

(** X6. On a knob that is no string knob, no enumeration knob and not named
    [label], the package version and the standalone script make the same
    calls and give the same result for every input. *)
Theorem plain_knob_versions_agree
    (R : PyRuntime) (knob : Knob) (raw_value_str : option string) :
  is_String_Knob knob = false ->
  is_Enumeration_Knob knob = false ->
  knob_name knob <> "label" ->
  Package._set_knob_value_or_expression knob raw_value_str
  = Standalone._set_knob_value_or_expression knob raw_value_str.
Proof.
  intros Hstring Henum Hname. destruct raw_value_str as [raw|]; [|done].
  destruct (decide (PyStr.strip raw = "")) as [Hblank|Hne].
  { unfold Package._set_knob_value_or_expression,
      Standalone._set_knob_value_or_expression.
    by rewrite !decide_True. }
  destruct (PyStr.startswith "="%char (PyStr.strip raw)) eqn:Hs.
  - unfold Package._set_knob_value_or_expression,
      Standalone._set_knob_value_or_expression.
    destruct (decide (PyStr.strip raw = "")); [done|]. rewrite Hs.
    case_decide; reflexivity.
  - rewrite package_value_branch, standalone_value_branch by done. simpl.
    rewrite label_text_other_name by done.
    assert (Package._coerce_for_knob knob (Spec.literal (PyStr.strip raw))
            = Spec.literal (PyStr.strip raw)) as ->; [|done].
    unfold Package._coerce_for_knob. rewrite Hstring, Henum.
    by destruct (Spec.literal _).
Qed.

Lemma plain_knob_versions_agree_witness :
  Package._set_knob_value_or_expression (H := Demo.runtime)
    (Demo.size_knob Demo.accept_all) (Some "0.5, 2")
  = Standalone._set_knob_value_or_expression (Demo.size_knob Demo.accept_all)
      (Some "0.5, 2").
Proof.
  apply plain_knob_versions_agree; [reflexivity|reflexivity|discriminate].
Defined.

Section CallEndFacts.
Variable knob : Knob.

Lemma host_call_ends c : ends_with_call knob (host_call knob c).
Proof.
  unfold ends_with_call, host_call. simpl.
  destruct (knob_accepts knob c) eqn:E; by exists c.
Qed.

Lemma ends_with_call_cons {A} c (r : result A) calls :
  ends_with_call knob (r, calls) -> ends_with_call knob (r, c :: calls).
Proof.
  unfold ends_with_call. simpl.
  destruct r; intros (c' & Hlast & Hc'); exists c'; split; try done;
    destruct calls; try done.
Qed.

Lemma ends_with_call_bind_ret {A B} (m : Eff call A) (x : B) :
  ends_with_call knob m ->
  ends_with_call knob (Eff.bind m (fun _ => Eff.ret x)).
Proof.
  unfold ends_with_call. destruct m as [[a|e] calls]; simpl; [|done].
  by rewrite app_nil_r.
Qed.

Lemma setExpression_loop_ends expr todo :
  todo <> [] -> ends_with_call knob (Package.setExpression_loop knob expr todo).
Proof.
  induction todo as [|i todo IH]; [done|]. intros _. simpl.
  unfold host_call.
  destruct (knob_accepts knob (SetExpression expr (Some i))) as [e|] eqn:Hi;
    simpl.
  - destruct (is_TypeError e); simpl.
    + destruct (knob_accepts knob (SetExpression expr None)) eqn:Hw; simpl;
        by exists (SetExpression expr None).
    + by exists (SetExpression expr (Some i)).
  - destruct todo as [|i' todo].
    + by exists (SetExpression expr (Some i)).
    + specialize (IH ltac:(done)).
      destruct (Package.setExpression_loop knob expr (i' :: todo)) as [r calls].
      by apply ends_with_call_cons.
Qed.

Lemma setValue_loop_ends parsed k todo :
  todo <> [] -> ends_with_call knob (Package.setValue_loop knob parsed k todo).
Proof.
  revert k. induction todo as [|val todo IH]; [done|]. intros k _. simpl.
  unfold host_call.
  destruct (knob_accepts knob (SetValue val (Some k))) as [e|] eqn:Hi; simpl.
  - destruct (is_TypeError e); simpl.
    + destruct (knob_accepts knob (SetValue parsed None)) eqn:Hw; simpl;
        by exists (SetValue parsed None).
    + by exists (SetValue val (Some k)).
  - destruct todo as [|val' todo].
    + by exists (SetValue val (Some k)).
    + specialize (IH (k + 1) ltac:(done)).
      destruct (Package.setValue_loop knob parsed (k + 1) (val' :: todo))
        as [r calls].
      by apply ends_with_call_cons.
Qed.

Lemma literal_items_nonempty v items :
  list_items (Spec.literal v) = Some items -> items <> [].
Proof.
  pose proof (literal_list_length v) as Hlen.
  destruct (Spec.literal v) as [| | |l|l|]; try done; simpl; intros [= <-].
  - destruct Hlen as [Hlen _]. by destruct l.
  - destruct Hlen as [-> _]. intros Hnil%(f_equal length).
    by rewrite !length_map, split_length in Hnil.
Qed.

Lemma coerced_items (R : PyRuntime) s parsed items :
  list_items (Package.label_text knob s (Package._coerce_for_knob knob parsed))
  = Some items ->
  list_items parsed = Some items.
Proof.
  unfold Package.label_text, Package._coerce_for_knob.
  destruct (bool_decide _ && _), (is_String_Knob knob),
    (is_Enumeration_Knob knob), (knob_values knob), (knob_value knob) as [[|[]]|],
    parsed; simpl; try done; repeat case_match; try done.
Qed.

End CallEndFacts.

(** X7. Where an error of the per-knob operation comes from, in both files:
    either the input was blank or an [=] alone, and then no call was made on
    the knob; or the exception is the one the host raised on the last call
    made.  When the operation returns, it made at least one call and the host
    accepted the last one. *)
Theorem error_is_of_input_or_last_call
    (R : PyRuntime) (knob : Knob) (raw_value_str : option string) :
  let empty_value := (Raise (Exn ValueError "Empty value."), []) in
  let empty_expression := (Raise (Exn ValueError "Empty expression."), []) in
  let run := Package._set_knob_value_or_expression knob raw_value_str in
  let run' := Standalone._set_knob_value_or_expression knob raw_value_str in
  (run = empty_value \/ run = empty_expression \/ ends_with_call knob run)
  /\ (run' = empty_value \/ run' = empty_expression
      \/ ends_with_call knob run').
Proof.
  simpl. destruct raw_value_str as [raw|]; [|by split; left].
  destruct (decide (PyStr.strip raw = "")) as [Hblank|Hne].
  { unfold Package._set_knob_value_or_expression,
      Standalone._set_knob_value_or_expression.
    destruct (decide (PyStr.strip raw = "")); [by split; left|done]. }
  destruct (PyStr.startswith "="%char (PyStr.strip raw)) eqn:Hs.
  - assert (Standalone._set_knob_value_or_expression knob (Some raw)
            = Package._set_knob_value_or_expression knob (Some raw)) as ->.
    { unfold Package._set_knob_value_or_expression,
        Standalone._set_knob_value_or_expression.
      destruct (decide (PyStr.strip raw = "")); [done|]. rewrite Hs.
      case_decide; reflexivity. }
    assert (forall P : Prop, P -> P /\ P) as Hdup by tauto. apply Hdup.
    unfold Package._set_knob_value_or_expression.
    destruct (decide (PyStr.strip raw = "")); [done|]. rewrite Hs.
    case_decide; [by right; left|]. right; right.
    apply ends_with_call_bind_ret.
    destruct (negb _ && (1 <? _)) eqn:Hn; [|apply host_call_ends].
    apply setExpression_loop_ends.
    apply andb_true_iff in Hn as [_ Hn%Z.ltb_lt].
    rewrite seqZ_cons by lia. done.
  - split; right; right.
    + rewrite package_value_branch by done. simpl.
      apply ends_with_call_bind_ret.
      destruct (list_items _) as [items|] eqn:Hitems; [|apply host_call_ends].
      apply setValue_loop_ends.
      apply coerced_items in Hitems. by eapply literal_items_nonempty.
    + rewrite standalone_value_branch by done. simpl.
      apply ends_with_call_bind_ret.
      destruct (list_items _) as [items|] eqn:Hitems; [|apply host_call_ends].
      apply setValue_loop_ends. by eapply literal_items_nonempty.
Qed.

(** ** Target resolution and the reducer *)

Section ResolutionExtras.
Import PyStr.

Lemma nodes_by_class_cases class_name all_nodes :
  Package._nodes_by_class (Some class_name) all_nodes =
  let target := strip class_name in
  if decide (target = "") then []
  else if decide (Exists (fun n => node_Class n = target) all_nodes)
  then filter (fun n => node_Class n = target) all_nodes
  else filter (fun n => lower (node_Class n) = lower target) all_nodes.
Proof.
  unfold Package._nodes_by_class. simpl.
  destruct (decide (strip class_name = "")) as [|Hne]; [done|].
  set (target := strip class_name).
  destruct (filter (fun n => node_Class n = target) all_nodes) as [|n exact] eqn:E.
  - rewrite decide_False; [done|].
    intros (n & Hin & Hn)%Exists_exists.
    assert (n ∈ filter (fun n => node_Class n = target) all_nodes) as Hf
      by by apply list_elem_of_filter.
    rewrite E in Hf. by apply elem_of_nil in Hf.
  - rewrite decide_True; [done|].
    apply Exists_exists. exists n.
    assert (n ∈ filter (fun n => node_Class n = target) all_nodes) as Hf
      by (rewrite E; left).
    apply list_elem_of_filter in Hf. tauto.
Qed.

Lemma filter_nil_Forall {A} (P : A -> Prop) `{!forall x, Decision (P x)} l :
  filter P l = [] <-> Forall (fun x => ~ P x) l.
Proof.
  induction l as [|x l IH]; [by split; [constructor|]|].
  rewrite filter_cons. destruct (decide (P x)).
  - split; [done|]. by intros [? _]%Forall_cons.
  - rewrite IH, Forall_cons. tauto.
Qed.

End ResolutionExtras.

Lemma nodes_by_class_found (class_name : string) (all_nodes : list Node) :
  let target := PyStr.strip class_name in
  let found := Package._nodes_by_class (Some class_name) all_nodes in
  found `sublist_of` all_nodes
  /\ Forall (fun n => PyStr.lower (node_Class n) = PyStr.lower target) found
  /\ (found = [] <->
      target = ""
      \/ Forall (fun n => PyStr.lower (node_Class n) <> PyStr.lower target)
           all_nodes).
Proof.
  intros target found. subst found. rewrite nodes_by_class_cases.
  cbv zeta. fold target.
  destruct (decide (target = "")) as [Hblank|Hne].
  { split_and!; [apply sublist_nil_l|constructor|]. split; [by left|done]. }
  destruct (decide (Exists _ all_nodes)) as [Hex|Hno].
  - split_and!; [apply sublist_filter| |].
    + apply Forall_forall. intros n [Hn _]%list_elem_of_filter. by rewrite Hn.
    + rewrite filter_nil_Forall. split.
      * intros Hall. exfalso. apply Exists_exists in Hex as (n & Hin & Hn).
        by apply (proj1 (Forall_forall _ _) Hall n Hin).
      * intros [?|Hall]; [done|]. exfalso.
        apply Exists_exists in Hex as (n & Hin & Hn).
        apply (proj1 (Forall_forall _ _) Hall n Hin). by rewrite Hn.
  - split_and!; [apply sublist_filter| |].
    + apply Forall_forall. by intros n [Hn _]%list_elem_of_filter.
    + rewrite filter_nil_Forall. split; [by right|]. by intros [?|?].
Qed.

(** X8. What [_nodes_by_class] returns: nodes of the script in their order,
    each with the class of the trimmed name up to case; and nothing exactly
    when the trimmed name is empty or no node of the script has that class
    up to case. *)
Theorem nodes_by_class_result (class_name : string) (all_nodes : list Node) :
  let target := PyStr.strip class_name in
  let found := Package._nodes_by_class (Some class_name) all_nodes in
  found `sublist_of` all_nodes
  /\ Forall (fun n => PyStr.lower (node_Class n) = PyStr.lower target) found
  /\ (found = [] <->
      target = ""
      \/ Forall (fun n => PyStr.lower (node_Class n) <> PyStr.lower target)
           all_nodes).
Proof. exact (nodes_by_class_found class_name all_nodes). Qed.

Section ReducerExtras.
Context (R : PyRuntime).

Lemma elem_of_common_fold k rest (X : gset string) :
  k ∈ fold_left (fun common node => common ∩ list_to_set (node_knobs node))
        rest X
  <-> k ∈ X /\ Forall (fun n => k ∈ node_knobs n) rest.
Proof.
  revert X. induction rest as [|n rest IH]; intros X; simpl.
  - split; [by intros ?; split; [|constructor]|by intros [? _]].
  - rewrite IH, elem_of_intersection, elem_of_list_to_set, Forall_cons. tauto.
Qed.

Lemma package_common_membership first rest k :
  k ∈ Package._common_knobs_for_nodes (first :: rest) <->
  Forall (fun n => k ∈ node_knobs n) (first :: rest)
  /\ (k ∉ EXCLUDE_KNOBS)
  /\ keeps first k = true.
Proof.
  unfold Package._common_knobs_for_nodes.
  set (common := fold_left _ rest _).
  assert (k ∈ common <-> Forall (fun n => k ∈ node_knobs n) (first :: rest))
    as Hcommon.
  { unfold common. rewrite elem_of_common_fold, elem_of_list_to_set.
    by rewrite Forall_cons. }
  case_decide as Hempty.
  - split; [by intros ?%elem_of_nil|]. intros (Hall & _ & _).
    apply Hcommon in Hall. rewrite Hempty in Hall. by apply elem_of_empty in Hall.
  - rewrite elem_of_sorted, elem_of_list_to_set, package_visible_loop_filter.
    simpl. rewrite list_elem_of_filter, elem_of_set_iter, elem_of_difference.
    rewrite Hcommon. destruct (keeps first k); simpl; split; try tauto.
    by intros (_ & _ & ?).
Qed.

Lemma package_common_sorted nodes :
  Sorted String.le (Package._common_knobs_for_nodes nodes).
Proof.
  destruct nodes as [|first rest]; simpl; [constructor|].
  case_decide; [constructor|apply sorted_Sorted].
Qed.

Lemma package_common_NoDup nodes : NoDup (Package._common_knobs_for_nodes nodes).
Proof.
  destruct nodes as [|first rest]; simpl; [constructor|].
  case_decide; [constructor|apply sorted_NoDup].
Qed.

Lemma package_common_ext nodes nodes' :
  (forall k, k ∈ Package._common_knobs_for_nodes nodes
             <-> k ∈ Package._common_knobs_for_nodes nodes') ->
  Package._common_knobs_for_nodes nodes = Package._common_knobs_for_nodes nodes'.
Proof.
  intros Hext.
  apply (Sorted_unique String.le); [apply package_common_sorted..|].
  by apply NoDup_Permutation; [apply package_common_NoDup..|].
Qed.

Lemma keeps_true first k :
  keeps first k = true <->
  exists knob,
    node_knob first k = Some knob
    /\ (k ∉ ["knobChanged"; "onCreate"; "updateUI"])
    /\ knob_visible knob <> Some false
    /\ (knob_visible knob = Some true -> knob_enabled knob <> Some false)
    /\ is_Tab_Text_PyScript_Knob knob = false.
Proof.
  unfold keeps, PyStr.mem. destruct (node_knob first k) as [knob|].
  - rewrite !andb_true_iff, !negb_true_iff, bool_decide_eq_false. split.
    + intros [[Hhook Hvis] Htab]. exists knob. split_and!; try done.
      * by destruct (knob_visible knob) as [[]|].
      * intros Hv. rewrite Hv in Hvis. by destruct (knob_enabled knob) as [[]|].
    + intros (knob' & [= <-] & Hhook & Hvis & Hen & Htab). split_and!; try done.
      destruct (knob_visible knob) as [[]|]; try done.
      specialize (Hen eq_refl). by destruct (knob_enabled knob) as [[]|].
  - split; [done|]. by intros (knob & ? & _).
Qed.

End ReducerExtras.

(** X9. Which names the reducer offers, for targets [first :: rest]: exactly
    the names that every target lists, that are not in [EXCLUDE_KNOBS] and
    not a hook name, and whose knob on the first target exists, is not
    reported hidden, is not reported disabled while reported visible, and is
    no tab, text or script-button knob.  A knob whose visibility query raises
    is offered, also when it is disabled. *)
Theorem common_knob_membership
    (R : PyRuntime) (first : Node) (rest : list Node) (k : string) :
  k ∈ Package._common_knobs_for_nodes (first :: rest) <->
  Forall (fun n => k ∈ node_knobs n) (first :: rest)
  /\ (k ∉ EXCLUDE_KNOBS)
  /\ exists knob,
       node_knob first k = Some knob
       /\ (k ∉ ["knobChanged"; "onCreate"; "updateUI"])
       /\ knob_visible knob <> Some false
       /\ (knob_visible knob = Some true -> knob_enabled knob <> Some false)
       /\ is_Tab_Text_PyScript_Knob knob = false.
Proof. by rewrite package_common_membership, keeps_true. Qed.

(** X10. More targets never add a name: the list for [first :: rest ++ more]
    is contained in the list for [first :: rest].  The order of the targets
    after the first, and repeating a target, make no difference; targets
    that list every offered name can be added without changing the list. *)
Theorem common_knobs_shrink_with_targets
    (R : PyRuntime) (first : Node) (rest more : list Node) :
  (forall k,
     k ∈ Package._common_knobs_for_nodes (first :: rest ++ more) ->
     k ∈ Package._common_knobs_for_nodes (first :: rest))
  /\ (forall rest',
        rest ≡ₚ rest' ->
        Package._common_knobs_for_nodes (first :: rest')
        = Package._common_knobs_for_nodes (first :: rest))
  /\ Package._common_knobs_for_nodes (first :: first :: rest)
     = Package._common_knobs_for_nodes (first :: rest)
  /\ (Forall (fun n =>
                forall k, k ∈ Package._common_knobs_for_nodes (first :: rest) ->
                          k ∈ node_knobs n) more ->
      Package._common_knobs_for_nodes (first :: rest ++ more)
      = Package._common_knobs_for_nodes (first :: rest)).
Proof.
  split_and!.
  - intros k. rewrite !package_common_membership, !Forall_cons, Forall_app.
    tauto.
  - intros rest' Hperm. apply package_common_ext. intros k.
    rewrite !package_common_membership, !Forall_cons. by rewrite Hperm.
  - apply package_common_ext. intros k.
    rewrite !package_common_membership, !Forall_cons. tauto.
  - intros Hmore. apply package_common_ext. intros k.
    rewrite !package_common_membership, !Forall_cons, Forall_app.
    split; [tauto|]. intros (Hall & Hex & Hkeep). split_and!; try tauto.
    apply Forall_forall. intros n Hn.
    apply (proj1 (Forall_forall _ _) Hmore n Hn).
    rewrite package_common_membership, Forall_cons. tauto.
Qed.

(** ** The drivers as a whole *)

Section DriverExtras.
Variable set_knob : Knob -> option string -> Eff call string.
Variable knob_name : string.
Variable value_str : option string.



End DriverExtras.



(** X12. What the package driver resolves: the target list is never empty;
    in the two class modes it is [_nodes_by_class] of the script, the
    class named in the report is the class of its first node, and every
    target has that class up to case; in any other mode the targets are the
    selection and no class is named. *)
Theorem resolved_targets_and_class
    (ses : Session) (targets : list Node) (target_class : option string) :
  Package.targets_for_mode ses = inr (targets, target_class) ->
  targets <> []
  /\ (is_class_mode (modeValue ses) = true ->
      exists first rest,
        targets = first :: rest
        /\ target_class = Some (node_Class first)
        /\ targets `sublist_of` allNodes ses
        /\ Forall (fun n => PyStr.lower (node_Class n)
                            = PyStr.lower (node_Class first)) targets)
  /\ (is_class_mode (modeValue ses) = false ->
      targets = selectedNodes ses /\ target_class = None).
Proof.
  unfold Package.targets_for_mode, is_class_mode.
  assert (forall c first rest,
            Package._nodes_by_class (Some c) (allNodes ses) = first :: rest ->
            (first :: rest) `sublist_of` allNodes ses
            /\ Forall (fun n => PyStr.lower (node_Class n)
                                = PyStr.lower (node_Class first))
                 (first :: rest)) as Hclass.
  { intros c first rest Hfound.
    destruct (nodes_by_class_found c (allNodes ses)) as (Hsub & Hlow & _).
    rewrite Hfound in Hsub, Hlow. split; [done|].
    pose proof (Forall_inv Hlow) as Hfirst. simpl in Hfirst.
    eapply Forall_impl; [exact Hlow|]. intros n Hn. simpl in Hn. congruence. }
  destruct (decide (modeValue ses = "by class")) as [Hm|Hm].
  - rewrite (bool_decide_eq_true_2 _ Hm). cbn [orb].
    destruct (Package._nodes_by_class (Some (classValue ses)) (allNodes ses))
      as [|first rest] eqn:Hfound; [done|].
    intros [= <- <-]. split_and!; [done| |done].
    intros _. exists first, rest. destruct (Hclass _ _ _ Hfound). done.
  - rewrite (bool_decide_eq_false_2 _ Hm). cbn [orb].
    destruct (decide (modeValue ses = "by class from selection")) as [Hm'|Hm'].
    + rewrite (bool_decide_eq_true_2 _ Hm').
      destruct (Package._selected_node_class ses) as [c|]; [|done].
      case_decide; [done|].
      destruct (Package._nodes_by_class (Some c) (allNodes ses))
        as [|first rest] eqn:Hfound; [done|].
      intros [= <- <-]. split_and!; [done| |done].
      intros _. exists first, rest. destruct (Hclass _ _ _ Hfound). done.
    + rewrite (bool_decide_eq_false_2 _ Hm').
      destruct (selectedNodes ses) as [|first rest] eqn:Hsel; [done|].
      intros [= <- <-]. by split_and!.
Qed.

Lemma resolved_targets_and_class_witness :
  [Demo.T1; Demo.T3] <> []
  /\ (is_class_mode "by class" = true ->
      exists first rest,
        [Demo.T1; Demo.T3] = first :: rest
        /\ Some "Blur" = Some (node_Class first)
        /\ [Demo.T1; Demo.T3]
             `sublist_of` [Demo.T1; Demo.T2; Demo.T3; Demo.T4]
        /\ Forall (fun n => PyStr.lower (node_Class n)
                            = PyStr.lower (node_Class first))
             [Demo.T1; Demo.T3])
  /\ (is_class_mode "by class" = false ->
      [Demo.T1; Demo.T3] = [] /\ Some "Blur" = None).
Proof.
  exact (resolved_targets_and_class
           {| selectedNodes := []; allNodes := [Demo.T1; Demo.T2; Demo.T3; Demo.T4];
              showModalDialog := true; modeValue := "by class";
              classValue := " Blur"; knobName := None;
              valueString := Some "1" |}
           [Demo.T1; Demo.T3] (Some "Blur") eq_refl).
Defined.

Lemma driver_offered_knob_cases
    (R : PyRuntime) (ses : Session) (targets : list Node)
    (target_class : option string) :
  let items := Package._common_knobs_for_nodes targets in
  showModalDialog ses = true ->
  is_blank (valueString ses) = false ->
  Package.targets_for_mode ses = inr (targets, target_class) ->
  items <> [] ->
  exists k first rest knob,
    k ∈ items
    /\ (forall c, knobName ses = Some c -> c ∈ items -> k = c)
    /\ ((forall c, knobName ses = Some c -> c ∉ items) -> head items = Some k)
    /\ (k ∉ EXCLUDE_KNOBS)
    /\ targets = first :: rest
    /\ node_knob first k = Some knob
    /\ attempt_of Package._set_knob_value_or_expression k (valueString ses)
         first <> Skipped
    /\ Package.mass_knob_modifier ses =
       Eff.bind
         (apply_loop Package._set_knob_value_or_expression k (valueString ses)
            targets)
         (fun vars =>
            Eff.emit
              (EMessage
                 (Package.report k (default "" (valueString ses)) target_class
                    vars))).
Proof.
  intros items Hshow Hvalue Htargets Hitems.
  unfold Package.mass_knob_modifier. rewrite Hshow, Hvalue, Htargets. simpl.
  fold items. destruct items as [|item rest_items] eqn:Eitems; [done|].
  set (k := match knobName ses with
            | Some c => if PyStr.mem c (item :: rest_items) then c else item
            | None => item
            end).
  assert (k ∈ item :: rest_items) as Hk.
  { unfold k, PyStr.mem. destruct (knobName ses) as [c|]; [|left].
    case_bool_decide; [done|left]. }
  destruct targets as [|first rest].
  { by rewrite <- Eitems in Hk; apply elem_of_nil in Hk. }
  pose proof Hk as Hoffered. rewrite <- Eitems in Hoffered.
  apply package_common_membership in Hoffered as (_ & Hex & Hkeep).
  apply keeps_true in Hkeep as (knob & Hknob & _).
  exists k, first, rest, knob. split_and!; try done.
  - intros c Hc Hin. unfold k, PyStr.mem. rewrite Hc.
    by rewrite bool_decide_eq_true_2.
  - intros Hnot. simpl. f_equal. unfold k, PyStr.mem.
    destruct (knobName ses) as [c|]; [|done].
    by rewrite bool_decide_eq_false_2 by by apply Hnot.
  - unfold attempt_of. rewrite Hknob.
    destruct (Package._set_knob_value_or_expression knob (valueString ses))
      as [[]]; [done|]. by destruct (is_Exception e).
Qed.

(** X13. The knob the package driver applies is always one the reducer
    offers for the resolved targets: the name chosen in the dialog when it is
    offered, the first offered name otherwise.  So the driver never writes
    to a name of [EXCLUDE_KNOBS], whatever the dialog holds, and the first
    target always has the knob and is attempted. *)
Theorem driver_applies_an_offered_knob
    (R : PyRuntime) (ses : Session) (targets : list Node)
    (target_class : option string) :
  let items := Package._common_knobs_for_nodes targets in
  showModalDialog ses = true ->
  is_blank (valueString ses) = false ->
  Package.targets_for_mode ses = inr (targets, target_class) ->
  items <> [] ->
  exists k first rest knob,
    k ∈ items
    /\ (forall c, knobName ses = Some c -> c ∈ items -> k = c)
    /\ ((forall c, knobName ses = Some c -> c ∉ items) -> head items = Some k)
    /\ (k ∉ EXCLUDE_KNOBS)
    /\ targets = first :: rest
    /\ node_knob first k = Some knob
    /\ attempt_of Package._set_knob_value_or_expression k (valueString ses)
         first <> Skipped
    /\ Package.mass_knob_modifier ses =
       Eff.bind
         (apply_loop Package._set_knob_value_or_expression k (valueString ses)
            targets)
         (fun vars =>
            Eff.emit
              (EMessage
                 (Package.report k (default "" (valueString ses)) target_class
                    vars))).
Proof. exact (driver_offered_knob_cases R ses targets target_class). Qed.

Lemma driver_applies_an_offered_knob_witness :
  exists k first rest knob,
    k ∈ Package._common_knobs_for_nodes (H := Demo.runtime) [Demo.T1; Demo.T3]
    /\ k = "label" /\ [Demo.T1; Demo.T3] = first :: rest
    /\ node_knob first k = Some knob.
Proof.
  pose proof (driver_applies_an_offered_knob Demo.runtime
                {| selectedNodes := [Demo.T1; Demo.T3]; allNodes := [];
                   showModalDialog := true; modeValue := "by selection";
                   classValue := ""; knobName := Some "xpos";
                   valueString := Some "1" |}
                [Demo.T1; Demo.T3] None eq_refl eq_refl eq_refl) as Hrun.
  assert (Package._common_knobs_for_nodes (H := Demo.runtime)
            [Demo.T1; Demo.T3] <> []) as Hne by (vm_compute; discriminate).
  destruct (Hrun Hne)
    as (k & first & rest & knob & Hk & _ & Hhead & _ & Htargets & Hknob & _).
  exists k, first, rest, knob.
  split; [exact Hk|]. split; [|split; [exact Htargets|exact Hknob]].
  assert (head (Package._common_knobs_for_nodes (H := Demo.runtime)
                  [Demo.T1; Demo.T3]) = Some k) as Hk'.
  { apply Hhead. intros c [= <-]. compute_done. }
  vm_compute in Hk'. by injection Hk' as <-.
Defined.

(** ** The panel *)

Lemma refresh_cases (R : PyRuntime) (ses : Session) :
  let run := Panel._refresh_knob_dropdown_for_mode ses in
  fst run = Return tt
  /\ ((is_class_mode (modeValue ses) = false /\ snd run = [])
      \/ (is_class_mode (modeValue ses) = true
          /\ exists text, snd run = [PMessage text])
      \/ (is_class_mode (modeValue ses) = true
          /\ exists targets target_class items item,
               Package.targets_for_mode ses = inr (targets, target_class)
               /\ items = Package._common_knobs_for_nodes targets
               /\ item ∈ items
               /\ (forall c, knobName ses = Some c -> c ∈ items -> item = c)
               /\ ((forall c, knobName ses = Some c -> c ∉ items) ->
                   head items = Some item)
               /\ snd run = [PSetValues items; PSetValue item])).
Proof.
  assert (forall targets target_class,
            targets <> [] ->
            Package.targets_for_mode ses = inr (targets, target_class) ->
            let run :=
              match Package._common_knobs_for_nodes targets with
              | [] =>
                  Eff.emit
                    (PMessage
                       ("No usable common knobs found for class '"
                        +:+ match targets with
                            | first :: _ => node_Class first
                            | [] => ""
                            end +:+ "'."))
              | item :: items =>
                  Eff.bind (Eff.emit (PSetValues (item :: items)))
                    (fun _ =>
                       Eff.emit
                         (PSetValue
                            match knobName ses with
                            | Some c =>
                                if PyStr.mem c (item :: items) then c else item
                            | None => item
                            end))
              end in
            fst run = Return tt
            /\ ((exists text, snd run = [PMessage text])
                \/ exists targets target_class items item,
                     Package.targets_for_mode ses = inr (targets, target_class)
                     /\ items = Package._common_knobs_for_nodes targets
                     /\ item ∈ items
                     /\ (forall c, knobName ses = Some c -> c ∈ items -> item = c)
                     /\ ((forall c, knobName ses = Some c -> c ∉ items) ->
                         head items = Some item)
                     /\ snd run = [PSetValues items; PSetValue item]))
    as Hitems.
  { intros targets target_class Hne Htargets.
    destruct (Package._common_knobs_for_nodes targets) as [|item items] eqn:E;
      simpl; [split; [done|left; by eexists]|].
    split; [done|]. right.
    eexists targets, target_class, (item :: items), _.
    split_and!; [done|by rewrite E| | |..|done].
    - unfold PyStr.mem. destruct (knobName ses) as [c|]; [|left].
      case_bool_decide; [done|left].
    - intros c Hc Hin. unfold PyStr.mem. rewrite Hc.
      by rewrite bool_decide_eq_true_2.
    - intros Hnot. simpl. f_equal. unfold PyStr.mem.
      destruct (knobName ses) as [c|]; [|done].
      by rewrite bool_decide_eq_false_2 by by apply Hnot. }
  unfold Panel._refresh_knob_dropdown_for_mode, is_class_mode.
  destruct (decide (modeValue ses = "by class")) as [Hm|Hm].
  - rewrite (bool_decide_eq_true_2 _ Hm). cbn [orb].
    destruct (Package._nodes_by_class (Some (classValue ses)) (allNodes ses))
      as [|first rest] eqn:Hfound.
    { split; [done|]. right; left. split; [done|]. by eexists. }
    assert (Package.targets_for_mode ses
            = inr (first :: rest, Some (node_Class first))) as Htargets.
    { unfold Package.targets_for_mode. rewrite decide_True by done.
      by rewrite Hfound. }
    destruct (Hitems (first :: rest) (Some (node_Class first)) ltac:(done)
                Htargets) as [Hret [Hmsg|Hset]].
    + split; [done|]. right; left. by split.
    + split; [done|]. right; right. by split.
  - rewrite (bool_decide_eq_false_2 _ Hm). cbn [orb].
    destruct (decide (modeValue ses = "by class from selection")) as [Hm'|Hm'].
    + rewrite (bool_decide_eq_true_2 _ Hm').
      destruct (Package._selected_node_class ses) as [c|] eqn:Hsel.
      2:{ split; [done|]. right; left. split; [done|]. by eexists. }
      case_decide as Hc.
      { split; [done|]. right; left. split; [done|]. by eexists. }
      destruct (Package._nodes_by_class (Some c) (allNodes ses))
        as [|first rest] eqn:Hfound.
      { split; [done|]. right; left. split; [done|]. by eexists. }
      assert (Package.targets_for_mode ses
              = inr (first :: rest, Some (node_Class first))) as Htargets.
      { unfold Package.targets_for_mode. rewrite decide_False by done.
        rewrite decide_True by done. rewrite Hsel.
        rewrite decide_False by done. by rewrite Hfound. }
      destruct (Hitems (first :: rest) (Some (node_Class first)) ltac:(done)
                  Htargets) as [Hret [Hmsg|Hset]].
      * split; [done|]. right; left. by split.
      * split; [done|]. right; right. by split.
    + rewrite (bool_decide_eq_false_2 _ Hm'). split; [done|]. by left.
Qed.

(** X14. The refresh of the dropdown returns and does one of three things:
    nothing, in a mode that is no class mode; or it shows one message and
    leaves the dropdown alone; or it replaces the options by the list the
    reducer offers for the nodes of the class, which is then not empty, and
    selects an option of that list: the current one when it is still
    offered, the first one otherwise.  It never changes a visibility. *)
Theorem refresh_selects_an_offered_knob (R : PyRuntime) (ses : Session) :
  let run := Panel._refresh_knob_dropdown_for_mode ses in
  fst run = Return tt
  /\ ((is_class_mode (modeValue ses) = false /\ snd run = [])
      \/ (is_class_mode (modeValue ses) = true
          /\ exists text, snd run = [PMessage text])
      \/ (is_class_mode (modeValue ses) = true
          /\ exists targets target_class items item,
               Package.targets_for_mode ses = inr (targets, target_class)
               /\ items = Package._common_knobs_for_nodes targets
               /\ item ∈ items
               /\ (forall c, knobName ses = Some c -> c ∈ items -> item = c)
               /\ ((forall c, knobName ses = Some c -> c ∉ items) ->
                   head items = Some item)
               /\ snd run = [PSetValues items; PSetValue item])).
Proof. exact (refresh_cases R ses). Qed.



(** X16. [knobChanged] reacts to two knobs only.  On the mode knob it sets
    two visibilities and nothing else: the class field is shown exactly in
    mode "by class", the update button is hidden exactly in mode "by
    selection", so the class field is never shown without the button.  On
    the update button it does what the refresh does.  On any other knob it
    does nothing. *)
Theorem knobChanged_reacts_to_mode_and_update
    (R : PyRuntime) (k : panel_knob) (ses : Session) :
  let run := Panel.knobChanged k ses in
  match k with
  | ModeKnob =>
      exists class_shown button_shown,
        run = (Return tt,
               [PSetVisible ClassNameKnob class_shown;
                PSetVisible UpdateButton button_shown])
        /\ (class_shown = true <-> modeValue ses = "by class")
        /\ (button_shown = false <-> modeValue ses = "by selection")
        /\ (class_shown = true -> button_shown = true)
  | UpdateButton => run = Panel._refresh_knob_dropdown_for_mode ses
  | _ => run = (Return tt, [])
  end.
Proof.
  destruct k; cbv zeta; unfold Panel.knobChanged; try done.
  - unfold Panel._apply_mode_visibility.
    destruct (decide (modeValue ses = "by selection")) as [Hm|Hm].
    + exists false, false. split_and!; [done| |done|done].
      rewrite Hm. by split.
    + destruct (decide (modeValue ses = "by class")) as [Hm'|Hm'].
      * exists true, true. by split_and!.
      * exists false, true. by split_and!.
  - simpl. by destruct (Panel._refresh_knob_dropdown_for_mode ses) as [[[]|] ?].
Qed.

(** ** Coercion and the label at their edges *)

Section CoercionExtras.
Import PyStr.
Context (R : PyRuntime).

Lemma index_Some p opts r :
  index p opts = Some r ->
  exists i : nat, r = Z.of_nat i /\ opts !! i = Some p.
Proof.
  revert r. induction opts as [|o opts IH]; intros r; [done|]. simpl.
  destruct (decide (o = p)) as [->|Hne].
  - intros [= <-]. by exists O.
  - destruct (index p opts) as [r'|]; [|done]. intros [= <-].
    destruct (IH r' eq_refl) as (i & -> & Hi). exists (S i). split; [lia|done].
Qed.

Lemma lower_match_Some low k opts r :
  Package.lower_match low k opts = Some r ->
  exists (i : nat) o, r = k + Z.of_nat i /\ opts !! i = Some o /\ lower o = low.
Proof.
  revert k. induction opts as [|o opts IH]; intros k; [done|]. simpl.
  destruct (decide (lower o = low)) as [Ho|Ho].
  - intros [= <-]. exists O, o. split_and!; [lia|done..].
  - intros (i & o' & -> & Hi & Ho')%IH. exists (S i), o'.
    split_and!; [lia|done..].
Qed.

Lemma coerce_enum_index knob opts p i :
  is_String_Knob knob = false ->
  knob_values knob = Some opts ->
  Package._coerce_for_knob knob (PStr p) = PInt i ->
  is_Enumeration_Knob knob = true
  /\ exists (j : nat) o,
       i = Z.of_nat j /\ opts !! j = Some o /\ lower o = lower p.
Proof.
  intros Hs Hopts. unfold Package._coerce_for_knob. rewrite Hs, Hopts.
  destruct (is_Enumeration_Knob knob); [|done]. split; [done|].
  destruct (mem p opts).
  - destruct (index p opts) as [r|] eqn:Hr; [|done]. injection H as <-.
    destruct (index_Some _ _ _ Hr) as (j & -> & Hj). by exists j, p.
  - destruct (Package.lower_match (lower p) 0 opts) as [r|] eqn:Hr; [|done].
    injection H as <-.
    destruct (lower_match_Some _ _ _ _ Hr) as (j & o & -> & Hj & Ho).
    exists j, o. split_and!; [lia|done..].
Qed.

End CoercionExtras.

(** X17. Coercing twice is coercing once.  On a string knob the result is
    always text.  On any other knob only text is ever changed, and only into
    the index of an option of the enumeration: an index within the option
    list whose option equals the text up to case. *)
Theorem coercion_is_idempotent_and_in_range
    (R : PyRuntime) (knob : Knob) (parsed : PyVal) :
  Package._coerce_for_knob knob (Package._coerce_for_knob knob parsed)
  = Package._coerce_for_knob knob parsed
  /\ (is_String_Knob knob = true ->
      exists text, Package._coerce_for_knob knob parsed = PStr text)
  /\ (is_String_Knob knob = false ->
      Package._coerce_for_knob knob parsed = parsed
      \/ exists p opts (j : nat) o,
           parsed = PStr p
           /\ is_Enumeration_Knob knob = true
           /\ knob_values knob = Some opts
           /\ Package._coerce_for_knob knob parsed = PInt (Z.of_nat j)
           /\ (j < length opts)%nat
           /\ opts !! j = Some o
           /\ PyStr.lower o = PyStr.lower p).
Proof.
  assert (is_String_Knob knob = false ->
          Package._coerce_for_knob knob parsed = parsed
          \/ exists p opts (j : nat) o,
               parsed = PStr p
               /\ is_Enumeration_Knob knob = true
               /\ knob_values knob = Some opts
               /\ Package._coerce_for_knob knob parsed = PInt (Z.of_nat j)
               /\ (j < length opts)%nat
               /\ opts !! j = Some o
               /\ PyStr.lower o = PyStr.lower p) as Hother.
  { intros Hs.
    destruct parsed as [b|z|f|l|l|p];
      try (left; unfold Package._coerce_for_knob; by rewrite Hs).
    destruct (is_Enumeration_Knob knob) eqn:He;
      [|left; unfold Package._coerce_for_knob; by rewrite Hs, He].
    destruct (knob_values knob) as [opts|] eqn:Hopts;
      [|left; unfold Package._coerce_for_knob; by rewrite Hs, He, Hopts].
    destruct (Package._coerce_for_knob knob (PStr p)) as [b|i|f|l|l|t] eqn:E.
    2:{ right.
        destruct (coerce_enum_index R knob opts p i Hs Hopts E)
          as (_ & j & o & -> & Hj & Ho).
        exists p, opts, j, o. split_and!; try done.
        by eapply lookup_lt_Some. }
    all: left; unfold Package._coerce_for_knob in E;
      rewrite Hs, He, Hopts in E; repeat case_match; by simplify_eq. }
  split_and!; [|intros Hs|done].
  - destruct (is_String_Knob knob) eqn:Hs.
    + rewrite !coerce_String_Knob by done. by destruct parsed.
    + destruct (Hother eq_refl)
        as [Hid|(p & opts & j & o & -> & _ & _ & -> & _)];
        [by rewrite !Hid|].
      unfold Package._coerce_for_knob. by rewrite Hs.
  - rewrite coerce_String_Knob by done. by eexists.
Qed.

(** X18. The label case is best effort: on a string knob named [label]
    whose text cannot be read, or which holds a true value that is no text,
    input that is no expression overwrites the label with the coerced text,
    as on any other string knob. *)
Theorem unreadable_label_is_overwritten
    (R : PyRuntime) (knob : Knob) (raw : string) :
  knob_name knob = "label" ->
  is_String_Knob knob = true ->
  knob_value knob = None \/ knob_value knob = Some (VOther true) ->
  PyStr.strip raw <> "" ->
  PyStr.startswith "="%char (PyStr.strip raw) = false ->
  exists text,
    Package._coerce_for_knob knob (Spec.literal (PyStr.strip raw)) = PStr text
    /\ Package._set_knob_value_or_expression knob (Some raw) =
       (match knob_accepts knob (SetValue (PStr text) None) with
        | None => Return "value"
        | Some e => Raise e
        end, [SetValue (PStr text) None]).
Proof.
  intros Hname Hstring Hvalue Hne Hs. eexists. split.
  - by apply coerce_String_Knob.
  - apply assign_text; [done..|].
    unfold Package.label_text. rewrite Hname, Hs. simpl.
    destruct Hvalue as [-> | ->]; by apply coerce_String_Knob.
Qed.

Lemma unreadable_label_is_overwritten_witness :
  exists text,
    Package._coerce_for_knob (H := Demo.runtime)
      (Demo.knob "label" true false 1 (VOther true) [] Demo.accept_all)
      (Spec.literal (PyStr.strip " 1,2 ")) = PStr text
    /\ Package._set_knob_value_or_expression (H := Demo.runtime)
         (Demo.knob "label" true false 1 (VOther true) [] Demo.accept_all)
         (Some " 1,2 ")
       = (Return "value", [SetValue (PStr text) None]).
Proof.
  apply (unreadable_label_is_overwritten Demo.runtime
           (Demo.knob "label" true false 1 (VOther true) [] Demo.accept_all)
           " 1,2 " eq_refl eq_refl (or_intror eq_refl)).
  - discriminate.
  - reflexivity.
Defined.
